(** * Bank reconciliation engine: billets against payments

    A shallow embedding of [internal/domain/service/reconciliation_service.go]
    and of the records of [internal/domain/model] it works on, followed by the
    properties of the two matching phases and of the report they produce.

    Conventions of the embedding:
    - [float64] is Rocq's primitive binary64 float, so [==], [<], [<=], [/]
      and [math.Abs] have their IEEE 754 meaning (division by zero yields an
      infinity or a NaN, it does not fault);
    - a Go pointer is an [option] ([None] is [nil]) and dereferencing [nil]
      panics; a slice is either the nil slice or a list of elements;
    - [map[string]bool] is a [gmap string bool] read with default [false];
    - [time.Time] is an instant counted in nanoseconds, [time.Duration] a
      signed 64-bit count of nanoseconds;
    - the receiver (an empty struct) and the [context.Context] argument are
      never read and are left out. *)

From Stdlib Require Import ZArith Lia List Floats.
From stdpp Require Import base strings gmap list.

Local Open Scope Z_scope.

(** ** The Go runtime the engine relies on *)

Module go.

(** A call either returns a value or panics (nil dereference). *)
Inductive outcome (A : Type) : Type :=
  | Returns (a : A)
  | Panics.
Arguments Returns {A} a.
Arguments Panics {A}.

#[global] Instance outcome_ret : MRet outcome := fun A a => Returns a.
#[global] Instance outcome_bind : MBind outcome := fun A B f m =>
  match m with
  | Returns a => f a
  | Panics => Panics
  end.

(** [*T]: [None] is the nil pointer. *)
Definition ptr (A : Type) : Type := option A.

Definition deref {A : Type} (p : ptr A) : outcome A :=
  match p with
  | Some a => Returns a
  | None => Panics
  end.

(** [[]T]: the nil slice and the slices that have a backing array. *)
Inductive slice (A : Type) : Type :=
  | NilSlice
  | Slice (l : list A).
Arguments NilSlice {A}.
Arguments Slice {A} l.

Definition elems {A : Type} (s : slice A) : list A :=
  match s with
  | NilSlice => []
  | Slice l => l
  end.

(** [append(s, x)] never yields the nil slice. *)
Definition append {A : Type} (s : slice A) (x : A) : slice A :=
  Slice (elems s ++ [x]).

(** [for _, x := range l { s = body(s, x) }] with a body that may panic. *)
Fixpoint rangeLoop {S A : Type} (body : S -> A -> outcome S) (l : list A) (s : S)
  : outcome S :=
  match l with
  | [] => Returns s
  | x :: l' => s' ← body s x; rangeLoop body l' s'
  end.

(** [m[k]] on a [map[string]bool]: a missing key reads as [false]. *)
Definition mapGet (m : gmap string bool) (k : string) : bool :=
  default false (m !! k).

(** The [error] interface: [None] is the nil error. *)
Definition error : Type := option string.

End go.
Import go.

Module time.

(** An instant, in nanoseconds since the Unix epoch. *)
Definition Time : Type := Z.

(** [time.Duration] is an [int64] count of nanoseconds. *)
Definition Duration : Type := Z.

Definition minDuration : Duration := - 2 ^ 63.
Definition maxDuration : Duration := 2 ^ 63 - 1.

(** Two's complement wrap-around of [int64] arithmetic. *)
Definition wrap64 (z : Z) : Z := (z + 2 ^ 63) mod 2 ^ 64 - 2 ^ 63.

(** [t.Sub(u)]: the difference, saturated at the extreme durations. *)
Definition Sub (t u : Time) : Duration :=
  Z.max minDuration (Z.min maxDuration (t - u)).

(** [t.Before(u)]. *)
Definition Before (t u : Time) : bool := t <? u.

(** Unary minus on a [Duration]. *)
Definition neg (d : Duration) : Duration := wrap64 (- d).

(** [time.Date(y, m, d, 0, 0, 0, 0, time.UTC)]: midnight of a civil date. *)
Definition Date (y m d : Z) : Time :=
  let y' := if m <=? 2 then y - 1 else y in
  let era := y' / 400 in
  let yoe := y' - era * 400 in
  let mp := if m <=? 2 then m + 9 else m - 3 in
  let doy := (153 * mp + 2) / 5 + d - 1 in
  let doe := yoe * 365 + yoe / 4 - yoe / 100 + doy in
  (era * 146097 + doe - 719468) * 86400 * 1000000000.

End time.

Module math.

Definition MaxInt64 : Z := 2 ^ 63 - 1.
Definition MaxFloat64 : float := 0x1.fffffffffffffp+1023%float.
Definition Abs (x : float) : float := PrimFloat.abs x.

End math.

(** ** The records of [internal/domain/model] *)

Module Billet.
Record t : Type := mk {
  ID : string;
  BankAccount : string;
  Amount : float;
  IssuanceDate : time.Time;
  ReferenceID : ptr string;
  CreatedAt : time.Time;
  UpdatedAt : time.Time
}.
End Billet.

Module Payment.
Record t : Type := mk {
  ID : string;
  BankAccount : string;
  Amount : float;
  PaymentDate : time.Time;
  ReferenceID : ptr string;
  CreatedAt : time.Time;
  UpdatedAt : time.Time
}.
End Payment.

Definition ConciliationStatus : Type := string.
Definition StatusSuccessful : ConciliationStatus := "conciliado_com_sucesso".
Definition StatusDifferentValue : ConciliationStatus := "valor_diferente".
Definition StatusNotReconciled : ConciliationStatus := "nao_conciliado".

Definition ConciliationStrategy : Type := string.
Definition StrategyReferenceID : ConciliationStrategy := "reference_id".
Definition StrategyAccountAmountDate : ConciliationStrategy := "conta_valor_data".

Module ReconciledBillet.
Record t : Type := mk {
  BilletID : string;
  BankAccount : string;
  TransactionID : string;
  ConciliationStatus : ConciliationStatus;
  ConciliationStrategy : ConciliationStrategy;
  ReferenceID : ptr string;
  AmountDiff : float
}.
End ReconciledBillet.

Module ReconciliationResult.
Record t : Type := mk {
  ReconciledBillets : slice ReconciledBillet.t;
  NonReconciledBillets : slice Billet.t
}.
End ReconciliationResult.

(** ** [internal/domain/service/reconciliation_service.go] *)

Definition TolerancePercentage : float := 5%float.

(** The two tracking maps and the slice of matches that both strategies
    receive by reference and update in place. *)
Record Tracking : Type := mkTracking {
  reconciledBilletsMap : gmap string bool;
  usedPaymentsMap : gmap string bool;
  reconciledBillets : slice ReconciledBillet.t
}.

(** [amountDiff := math.Abs(payment.Amount - billet.Amount)] *)
Definition amountDiff (payment : Payment.t) (billet : Billet.t) : float :=
  math.Abs (Payment.Amount payment - Billet.Amount billet)%float.

(** [amountDiffPercentage := (amountDiff / billet.Amount) * 100] *)
Definition amountDiffPercentage (payment : Payment.t) (billet : Billet.t) : float :=
  (amountDiff payment billet / Billet.Amount billet * 100)%float.

(** Body of the first loop of [reconcileByReferenceID]: index a payment by its
    reference when it has a non-empty one and is not used yet. *)
Definition indexPayment (used : gmap string bool)
    (paymentsByReferenceID : gmap string Payment.t) (payment : Payment.t)
  : gmap string Payment.t :=
  match Payment.ReferenceID payment with
  | Some ref =>
      if bool_decide (ref ≠ "") && negb (mapGet used (Payment.ID payment))
      then <[ref := payment]> paymentsByReferenceID
      else paymentsByReferenceID
  | None => paymentsByReferenceID
  end.

(** The status decision of [reconcileByReferenceID]; [None] is its
    [continue] branch. *)
Definition referenceStatus (payment : Payment.t) (billet : Billet.t)
  : option ConciliationStatus :=
  if (amountDiff payment billet =? 0)%float then Some StatusSuccessful
  else if (amountDiffPercentage payment billet <=? TolerancePercentage)%float
       then Some StatusDifferentValue
       else None.

(** The [model.ReconciledBillet] literal both strategies append. *)
Definition matchEntry (billet : Billet.t) (payment : Payment.t)
    (status : ConciliationStatus) (strategy : ConciliationStrategy) (diff : float)
  : ReconciledBillet.t :=
  {| ReconciledBillet.BilletID := Billet.ID billet;
     ReconciledBillet.BankAccount := Billet.BankAccount billet;
     ReconciledBillet.TransactionID := Payment.ID payment;
     ReconciledBillet.ConciliationStatus := status;
     ReconciledBillet.ConciliationStrategy := strategy;
     ReconciledBillet.ReferenceID := Billet.ReferenceID billet;
     ReconciledBillet.AmountDiff := diff |}.

(** Append a match and mark the billet and the payment as used. *)
Definition recordMatch (st : Tracking) (billet : Billet.t) (payment : Payment.t)
    (status : ConciliationStatus) (strategy : ConciliationStrategy) (diff : float)
  : Tracking :=
  {| reconciledBilletsMap := <[Billet.ID billet := true]> (reconciledBilletsMap st);
     usedPaymentsMap := <[Payment.ID payment := true]> (usedPaymentsMap st);
     reconciledBillets :=
       append (reconciledBillets st) (matchEntry billet payment status strategy diff) |}.

(** Body of the second loop of [reconcileByReferenceID]. *)
Definition matchByReference (paymentsByReferenceID : gmap string Payment.t)
    (st : Tracking) (billet : Billet.t) : Tracking :=
  if mapGet (reconciledBilletsMap st) (Billet.ID billet) then st
  else
    match Billet.ReferenceID billet with
    | None => st
    | Some ref =>
        if bool_decide (ref = "") then st
        else
          match paymentsByReferenceID !! ref with
          | None => st
          | Some payment =>
              match referenceStatus payment billet with
              | Some status =>
                  recordMatch st billet payment status StrategyReferenceID
                    (amountDiff payment billet)
              | None => st
              end
          end
    end.

Definition reconcileByReferenceID (billets : slice (ptr Billet.t))
    (payments : slice (ptr Payment.t)) (st : Tracking) : outcome Tracking :=
  paymentsByReferenceID ←
    rangeLoop
      (fun m p => payment ← deref p; mret (indexPayment (usedPaymentsMap st) m payment))
      (elems payments) ∅;
  rangeLoop
    (fun st' p => billet ← deref p; mret (matchByReference paymentsByReferenceID st' billet))
    (elems billets) st.

(** The three variables that track the best billet found for a payment. *)
Record Best : Type := mkBest {
  bestBillet : ptr Billet.t;
  minDateDiff : time.Duration;
  bestAmountDiff : float
}.

Definition noBest : Best :=
  {| bestBillet := None; minDateDiff := math.MaxInt64; bestAmountDiff := math.MaxFloat64 |}.

(** [dateDiff := payment.PaymentDate.Sub(billet.IssuanceDate)], negated when
    negative. *)
Definition dateDiff (payment : Payment.t) (billet : Billet.t) : time.Duration :=
  let d := time.Sub (Payment.PaymentDate payment) (Billet.IssuanceDate billet) in
  if d <? 0 then time.neg d else d.

(** The [isBetter] decision of [reconcileByAccountValueDate]. *)
Definition isBetter (payment : Payment.t) (best : Best) (billet : Billet.t) : bool :=
  match bestBillet best with
  | None => true
  | Some bestB =>
      if dateDiff payment billet <? minDateDiff best then true
      else if (dateDiff payment billet =? minDateDiff best)
              && (amountDiff payment billet <? bestAmountDiff best)%float then true
      else if (dateDiff payment billet =? minDateDiff best)
              && (amountDiff payment billet =? bestAmountDiff best)%float
              && time.Before (Billet.IssuanceDate billet) (Billet.IssuanceDate bestB)
           then true
      else false
  end.

(** Body of the inner loop of [reconcileByAccountValueDate]. *)
Definition considerBillet (reconciled : gmap string bool) (payment : Payment.t)
    (best : Best) (billet : Billet.t) : Best :=
  if mapGet reconciled (Billet.ID billet) then best
  else if bool_decide (Billet.BankAccount billet ≠ Payment.BankAccount payment) then best
  else if (TolerancePercentage <? amountDiffPercentage payment billet)%float then best
  else if isBetter payment best billet
       then {| bestBillet := Some billet;
               minDateDiff := dateDiff payment billet;
               bestAmountDiff := amountDiff payment billet |}
       else best.

(** What [reconcileByAccountValueDate] does once the billets are scanned. *)
Definition matchBest (st : Tracking) (payment : Payment.t) (best : Best) : Tracking :=
  match bestBillet best with
  | Some bestB =>
      recordMatch st bestB payment
        (if (bestAmountDiff best =? 0)%float then StatusSuccessful else StatusDifferentValue)
        StrategyAccountAmountDate (bestAmountDiff best)
  | None => st
  end.

(** Body of the outer loop of [reconcileByAccountValueDate]. *)
Definition matchPayment (billets : slice (ptr Billet.t)) (st : Tracking)
    (payment : Payment.t) : outcome Tracking :=
  if mapGet (usedPaymentsMap st) (Payment.ID payment) then mret st
  else
    best ←
      rangeLoop
        (fun b p => billet ← deref p;
                    mret (considerBillet (reconciledBilletsMap st) payment b billet))
        (elems billets) noBest;
    mret (matchBest st payment best).

Definition reconcileByAccountValueDate (billets : slice (ptr Billet.t))
    (payments : slice (ptr Payment.t)) (st : Tracking) : outcome Tracking :=
  rangeLoop (fun st' p => payment ← deref p; matchPayment billets st' payment)
    (elems payments) st.

(** Body of the last loop of [ReconcileBilletsWithPayments]. *)
Definition collectNonReconciled (reconciled : gmap string bool)
    (acc : slice Billet.t) (billet : Billet.t) : slice Billet.t :=
  if mapGet reconciled (Billet.ID billet) then acc else append acc billet.

(** The two empty maps and the empty, non-nil slice of matches a run starts
    from. *)
Definition initialTracking : Tracking :=
  {| reconciledBilletsMap := ∅; usedPaymentsMap := ∅; reconciledBillets := Slice [] |}.

Definition ReconcileBilletsWithPayments (billets : slice (ptr Billet.t))
    (payments : slice (ptr Payment.t))
  : outcome (ptr ReconciliationResult.t * error) :=
  st1 ← reconcileByReferenceID billets payments initialTracking;
  st2 ← reconcileByAccountValueDate billets payments st1;
  nonReconciled ←
    rangeLoop
      (fun acc p => billet ← deref p;
                    mret (collectNonReconciled (reconciledBilletsMap st2) acc billet))
      (elems billets) (Slice []);
  mret (Some {| ReconciliationResult.ReconciledBillets := reconciledBillets st2;
                ReconciliationResult.NonReconciledBillets := nonReconciled |},
        None).

(** ** The loops over non-nil elements, as folds *)

Definition indexPayments (used : gmap string bool) (ps : list Payment.t)
  : gmap string Payment.t :=
  foldl (indexPayment used) ∅ ps.

Definition byReference (bs : list Billet.t) (ps : list Payment.t) (st : Tracking)
  : Tracking :=
  foldl (matchByReference (indexPayments (usedPaymentsMap st) ps)) st bs.

Definition scanBillets (reconciled : gmap string bool) (payment : Payment.t)
    (bs : list Billet.t) : Best :=
  foldl (considerBillet reconciled payment) noBest bs.

Definition stepPayment (bs : list Billet.t) (st : Tracking) (payment : Payment.t)
  : Tracking :=
  if mapGet (usedPaymentsMap st) (Payment.ID payment) then st
  else matchBest st payment (scanBillets (reconciledBilletsMap st) payment bs).

Definition byAccountValueDate (bs : list Billet.t) (ps : list Payment.t)
    (st : Tracking) : Tracking :=
  foldl (stepPayment bs) st ps.

Definition nonReconciledOf (reconciled : gmap string bool) (bs : list Billet.t)
  : slice Billet.t :=
  foldl (collectNonReconciled reconciled) (Slice []) bs.

Definition finalTracking (bs : list Billet.t) (ps : list Payment.t) : Tracking :=
  byAccountValueDate bs ps (byReference bs ps initialTracking).

Definition reportOf (bs : list Billet.t) (ps : list Payment.t)
  : ReconciliationResult.t :=
  {| ReconciliationResult.ReconciledBillets := reconciledBillets (finalTracking bs ps);
     ReconciliationResult.NonReconciledBillets :=
       nonReconciledOf (reconciledBilletsMap (finalTracking bs ps)) bs |}.

(** ** Vocabulary of the properties *)

(** [r] is a match the reference strategy makes for a billet of [bs] with the
    payment that [index] holds under the billet's reference. *)
Definition fromReference (index : gmap string Payment.t) (bs : list Billet.t)
    (r : ReconciledBillet.t) : Prop :=
  exists b p ref status,
    b ∈ bs /\ Billet.ReferenceID b = Some ref /\ ref ≠ "" /\
    index !! ref = Some p /\ referenceStatus p b = Some status /\
    r = matchEntry b p status StrategyReferenceID (amountDiff p b).

(** [r] is a match the account/amount/date strategy makes between a billet of
    [bs] and a payment of [ps]. *)
Definition fromAccount (bs : list Billet.t) (ps : list Payment.t)
    (r : ReconciledBillet.t) : Prop :=
  exists b p,
    b ∈ bs /\ p ∈ ps /\ Billet.BankAccount b = Payment.BankAccount p /\
    (TolerancePercentage <? amountDiffPercentage p b)%float = false /\
    r = matchEntry b p
          (if (amountDiff p b =? 0)%float then StatusSuccessful else StatusDifferentValue)
          StrategyAccountAmountDate (amountDiff p b).

(** Number of matches that carry the billet identifier [id]. *)
Definition matchesOf (id : string) (rs : list ReconciledBillet.t) : nat :=
  length (filter (fun r => ReconciledBillet.BilletID r = id) rs).

(** Number of unmatched billets that carry the identifier [id]. *)
Definition unmatchedOf (id : string) (bs : list Billet.t) : nat :=
  length (filter (fun b => Billet.ID b = id) bs).

(** The tracking map of billets agrees with the matches made so far. *)
Definition consistent (st : Tracking) : Prop :=
  forall id,
    matchesOf id (elems (reconciledBillets st))
    = if mapGet (reconciledBilletsMap st) id then 1%nat else 0%nat.

(** *** The choice of the best billet *)

(** A billet passes the three [continue] guards of the inner loop of
    [reconcileByAccountValueDate]. *)
Definition eligible (reconciled : gmap string bool) (p : Payment.t) (b : Billet.t) : Prop :=
  mapGet reconciled (Billet.ID b) = false /\
  Billet.BankAccount b = Payment.BankAccount p /\
  (TolerancePercentage <? amountDiffPercentage p b)%float = false.

#[global] Instance eligible_dec reconciled p b : Decision (eligible reconciled p b).
Proof. unfold eligible. apply _. Defined.

(** The three tracking variables describe an eligible billet of [bs]. *)
Definition tracksBillet (reconciled : gmap string bool) (p : Payment.t)
    (bs : list Billet.t) (best : Best) : Prop :=
  forall b, bestBillet best = Some b ->
    b ∈ bs /\ eligible reconciled p b /\
    minDateDiff best = dateDiff p b /\ bestAmountDiff best = amountDiff p b.

(** Identifiers of the billets a slice points to. *)
Definition billetIDs (billets : slice (ptr Billet.t)) : list string :=
  Billet.ID <$> omap id (elems billets).

(** No two matches of a report carry the same transaction identifier. *)
Definition paymentsConsumedOnce (report : ReconciliationResult.t) : Prop :=
  NoDup (ReconciledBillet.TransactionID
           <$> elems (ReconciliationResult.ReconciledBillets report)).

(** The identifier of [b] is carried either by exactly one match and by no
    unmatched billet, or by no match and by exactly one unmatched billet,
    which is [b]. *)
Definition inExactlyOneSequence (report : ReconciliationResult.t) (b : Billet.t) : Prop :=
  let m := matchesOf (Billet.ID b) (elems (ReconciliationResult.ReconciledBillets report)) in
  let u := unmatchedOf (Billet.ID b) (elems (ReconciliationResult.NonReconciledBillets report)) in
  (m = 1%nat /\ u = 0%nat) \/
  (m = 0%nat /\ u = 1%nat /\ b ∈ elems (ReconciliationResult.NonReconciledBillets report)).

(** The match [r] was made with the last payment of [payments] that carries
    the reference of [r]. *)
Definition usesLastWithReference (payments : slice (ptr Payment.t))
    (r : ReconciledBillet.t) : Prop :=
  exists ref p earlier later,
    ReconciledBillet.ReferenceID r = Some ref /\ ref ≠ "" /\
    elems payments = earlier ++ Some p :: later /\
    Payment.ReferenceID p = Some ref /\
    ReconciledBillet.TransactionID r = Payment.ID p /\
    forall q, Some q ∈ later -> Payment.ReferenceID q ≠ Some ref.

(** The match [r] was made with the first payment of [payments] that carries
    the reference of [r]. *)
Definition usesFirstWithReference (payments : slice (ptr Payment.t))
    (r : ReconciledBillet.t) : Prop :=
  exists ref p earlier later,
    ReconciledBillet.ReferenceID r = Some ref /\ ref ≠ "" /\
    elems payments = earlier ++ Some p :: later /\
    Payment.ReferenceID p = Some ref /\
    ReconciledBillet.TransactionID r = Payment.ID p /\
    forall q, Some q ∈ earlier -> Payment.ReferenceID q ≠ Some ref.

(** The match [r] pairs a billet and a payment of the input that have the
    same bank account. *)
Definition sameAccount (billets : slice (ptr Billet.t)) (payments : slice (ptr Payment.t))
    (r : ReconciledBillet.t) : Prop :=
  exists b p,
    Some b ∈ elems billets /\ Some p ∈ elems payments /\
    ReconciledBillet.BilletID r = Billet.ID b /\
    ReconciledBillet.TransactionID r = Payment.ID p /\
    ReconciledBillet.BankAccount r = Billet.BankAccount b /\
    Billet.BankAccount b = Payment.BankAccount p.

(** [p] with its reference replaced. *)
Definition withReference (ref : ptr string) (p : Payment.t) : Payment.t :=
  {| Payment.ID := Payment.ID p;
     Payment.BankAccount := Payment.BankAccount p;
     Payment.Amount := Payment.Amount p;
     Payment.PaymentDate := Payment.PaymentDate p;
     Payment.ReferenceID := ref;
     Payment.CreatedAt := Payment.CreatedAt p;
     Payment.UpdatedAt := Payment.UpdatedAt p |}.





(** ** Binary64 floats as ordered keys *)

(** A key whose lexicographic order is the order of the floats that are not
    NaN: sign class first, then exponent and mantissa. *)
Definition sfKey (x : spec_float) : Z * Z * Z :=
  match x with
  | S754_nan => (0, 0, 0)
  | S754_zero _ => (0, 0, 0)
  | S754_infinity true => (-2, 0, 0)
  | S754_infinity false => (2, 0, 0)
  | S754_finite true m e => (-1, - e, - Z.pos m)
  | S754_finite false m e => (1, e, Z.pos m)
  end.

Definition lexCompare (a b : Z * Z * Z) : comparison :=
  match a.1.1 ?= b.1.1 with
  | Eq => match a.1.2 ?= b.1.2 with
          | Eq => a.2 ?= b.2
          | c => c
          end
  | c => c
  end.

Definition lexLt (a b : Z * Z * Z) : Prop :=
  a.1.1 < b.1.1 \/ (a.1.1 = b.1.1 /\ (a.1.2 < b.1.2 \/ (a.1.2 = b.1.2 /\ a.2 < b.2))).

Definition rank (x : float) : Z * Z * Z := sfKey (Prim2SF x).

(** ** The reference data set of the README *)

Definition noTime : time.Time := 0.

Definition B001 : Billet.t :=
  Billet.mk "B001" "C123" 100 (time.Date 2024 3 1) (Some "REF001") noTime noTime.
Definition B002 : Billet.t :=
  Billet.mk "B002" "C345" 200 (time.Date 2024 3 2) None noTime noTime.
Definition B003 : Billet.t :=
  Billet.mk "B003" "C678" 300 (time.Date 2024 3 3) (Some "REF003") noTime noTime.
Definition B004 : Billet.t :=
  Billet.mk "B004" "C910" 150 (time.Date 2024 3 4) (Some "REF004") noTime noTime.

Definition T100 : Payment.t :=
  Payment.mk "T100" "C123" 100 (time.Date 2024 3 5) (Some "REF001") noTime noTime.
Definition T101 : Payment.t :=
  Payment.mk "T101" "C345" 195 (time.Date 2024 3 4) None noTime noTime.
Definition T102 : Payment.t :=
  Payment.mk "T102" "C678" 300 (time.Date 2024 3 10) (Some "REF999") noTime noTime.
Definition T103 : Payment.t :=
  Payment.mk "T103" "C999" 150 (time.Date 2024 3 6) (Some "REF004") noTime noTime.

Definition sampleBillets : slice (ptr Billet.t) :=
  Slice [Some B001; Some B002; Some B003; Some B004].
Definition samplePayments : slice (ptr Payment.t) :=
  Slice [Some T100; Some T101; Some T102; Some T103].

(** ** Small inputs for the corner cases *)

(** Two billets that carry the same reference, and two payments that do. *)
Definition B001twin : Billet.t :=
  Billet.mk "B005" "C123" 100 (time.Date 2024 3 2) (Some "REF001") noTime noTime.
Definition T100twin : Payment.t :=
  Payment.mk "T104" "C123" 100 (time.Date 2024 3 6) (Some "REF001") noTime noTime.

(** A billet of amount [-0.0] and a payment of 10 that carry the same
    reference. *)
Definition negZeroBillet : Billet.t :=
  Billet.mk "B006" "C123" neg_zero (time.Date 2024 3 1) (Some "REF006") noTime noTime.
Definition tenPayment : Payment.t :=
  Payment.mk "T106" "C123" 10 (time.Date 2024 3 1) (Some "REF006") noTime noTime.

Definition T200 : Payment.t :=
  Payment.mk "T200" "C123" 200 (time.Date 2024 3 5) (Some "REF001") noTime noTime.
Definition zeroBillet : Billet.t :=
  Billet.mk "B007" "C123" 0 (time.Date 2024 3 1) (Some "REF006") noTime noTime.



(** ** Further vocabulary: what a report is made of *)

(** The billets and the payments a slice points to, nil pointers left out. *)
Definition billetsOf (billets : slice (ptr Billet.t)) : list Billet.t :=
  omap id (elems billets).
Definition paymentsOf (payments : slice (ptr Payment.t)) : list Payment.t :=
  omap id (elems payments).

(** The status both strategies give to an amount difference. *)
Definition statusOfDiff (diff : float) : ConciliationStatus :=
  if (diff =? 0)%float then StatusSuccessful else StatusDifferentValue.

(** [r] is the match of the billet [b] with the payment [p], under one of the
    two strategies. *)
Definition matchOf (b : Billet.t) (p : Payment.t) (r : ReconciledBillet.t) : Prop :=
  exists strategy,
    (strategy = StrategyReferenceID \/ strategy = StrategyAccountAmountDate) /\
    r = matchEntry b p (statusOfDiff (amountDiff p b)) strategy (amountDiff p b).

(** Number of matches that carry the transaction identifier [id]. *)
Definition consumptionsOf (id : string) (rs : list ReconciledBillet.t) : nat :=
  length (filter (fun r => ReconciledBillet.TransactionID r = id) rs).

(** The tracking map of payments marks the payments of the matches made so
    far, and only them. *)
Definition usedConsistent (st : Tracking) : Prop :=
  forall id,
    mapGet (usedPaymentsMap st) id = true
    <-> id ∈ ReconciledBillet.TransactionID <$> elems (reconciledBillets st).

(** The matches by account consume their payment once. *)
Definition accountMatchesOnce (st : Tracking) : Prop :=
  forall r, r ∈ elems (reconciledBillets st) ->
    ReconciledBillet.ConciliationStrategy r = StrategyAccountAmountDate ->
    consumptionsOf (ReconciledBillet.TransactionID r) (elems (reconciledBillets st))
    = 1%nat.

(** The report of the run on the reference data set. *)
Definition sampleReport : ReconciliationResult.t :=
  {| ReconciliationResult.ReconciledBillets :=
       Slice [ matchEntry B001 T100 StatusSuccessful StrategyReferenceID 0;
               matchEntry B004 T103 StatusSuccessful StrategyReferenceID 0;
               matchEntry B002 T101 StatusDifferentValue StrategyAccountAmountDate 5;
               matchEntry B003 T102 StatusSuccessful StrategyAccountAmountDate 0 ];
     ReconciliationResult.NonReconciledBillets := Slice [] |}.

(** The sign of a float that is not NaN. *)
Definition hasSign (s : bool) (x : spec_float) : Prop :=
  match x with
  | S754_zero s' | S754_infinity s' | S754_finite s' _ _ => s' = s
  | S754_nan => False
  end.

(** A billet of negative amount and a payment of 10 under its reference. *)
Definition negativeBillet : Billet.t :=
  Billet.mk "B008" "C123" (-100) (time.Date 2024 3 1) (Some "REF006") noTime noTime.

(** ** [pkg/errors/errors.go] *)

Module errors.

(** The values the [error] interface holds in this code: the four kinds of
    the package, always behind a non-nil pointer, the errors [fmt.Errorf]
    makes with and without [%w], and the sentinel [sql.ErrNoRows]. *)
#[warnings="-register-all"]
Inductive value : Type :=
  | NotFoundError (Resource ID : string)
  | ValidationError (Field Message : string)
  | ConflictError (Resource ID Reason : string)
  | DatabaseError (Operation : string) (Err : option value)
  | wrapError (msg : string) (err : value)
  | errorString (s : string)
  | sqlErrNoRows.

(** The [error] interface: [None] is the nil error. *)
Definition t : Type := option value.

(** The [Error] methods; [%v] prints a nil error as [<nil>]. *)
Fixpoint Error (e : value) : string :=
  match e with
  | NotFoundError resource id => resource +:+ " com ID " +:+ id +:+ " não encontrado"
  | ValidationError field message =>
      if bool_decide (field ≠ "")
      then "erro de validação no campo " +:+ field +:+ ": " +:+ message
      else "erro de validação: " +:+ message
  | ConflictError resource id reason =>
      if bool_decide (reason ≠ "")
      then "conflito com " +:+ resource +:+ " (ID: " +:+ id +:+ "): " +:+ reason
      else "conflito com " +:+ resource +:+ " (ID: " +:+ id +:+ ")"
  | DatabaseError operation err =>
      "erro na operação '" +:+ operation +:+ "' do banco de dados: "
      +:+ match err with
          | Some e' => Error e'
          | None => "<nil>"
          end
  | wrapError msg _ => msg
  | errorString s => s
  | sqlErrNoRows => "sql: no rows in result set"
  end.

Definition NewNotFoundError (resource id : string) : value := NotFoundError resource id.
Definition NewValidationError (field message : string) : value :=
  ValidationError field message.
Definition NewConflictError (resource id reason : string) : value :=
  ConflictError resource id reason.
Definition NewDatabaseError (operation : string) (err : t) : value :=
  DatabaseError operation err.

(** The type assertions to a pointer to [NotFoundError] and the like: they
    look at the error itself, not at what it wraps. *)
Definition IsNotFoundError (err : t) : bool :=
  match err with Some (NotFoundError _ _) => true | _ => false end.
Definition IsValidationError (err : t) : bool :=
  match err with Some (ValidationError _ _) => true | _ => false end.
Definition IsConflictError (err : t) : bool :=
  match err with Some (ConflictError _ _ _) => true | _ => false end.
Definition IsDatabaseError (err : t) : bool :=
  match err with Some (DatabaseError _ _) => true | _ => false end.

(** [fmt.Errorf("%s: %w", message, err)]: a wrapping error, or, for a nil
    operand, which [%w] cannot take, a plain error that says so. *)
Definition Wrap (err : t) (message : string) : t :=
  match err with
  | Some e => Some (wrapError (message +:+ ": " +:+ Error e) e)
  | None => Some (errorString (message +:+ ": %!w(<nil>)"))
  end.

End errors.

(** ** Looking a billet up: repository, use case and handler *)

Module http.

(** What a handler leaves in the [http.ResponseWriter]: the status code and
    the body; the headers are left out. *)
Record Response : Type := mkResponse {
  StatusCode : Z;
  Body : string
}.

Definition StatusOK : Z := 200.
Definition StatusBadRequest : Z := 400.
Definition StatusNotFound : Z := 404.
Definition StatusConflict : Z := 409.
Definition StatusInternalServerError : Z := 500.

(** [http.Error(w, msg, code)]: the message and a newline. *)
Definition Error (msg : string) (code : Z) : Response :=
  {| StatusCode := code; Body := msg +:+ String (Ascii.ascii_of_nat 10) "" |}.

End http.

(** [database/sql.NullString]. *)
Record NullString : Type := mkNullString {
  NullString_String : string;
  NullString_Valid : bool
}.

(** What [QueryRowContext(...).Scan(...)] gives [GetByID]: the error, and the
    columns it has filled in. *)
Record ScanResult : Type := mkScanResult {
  scanErr : errors.t;
  scanBillet : Billet.t;
  scanReferenceID : NullString
}.

(** [billetRepositoryImpl.GetByID]. *)
Definition billetRepository_GetByID (scan : ScanResult) (id : string)
  : ptr Billet.t * errors.t :=
  match scanErr scan with
  | Some errors.sqlErrNoRows =>
      (None, Some (errors.errorString ("boleto não encontrado: " +:+ id)))
  | Some err =>
      (None, Some (errors.wrapError ("erro ao buscar boleto: " +:+ errors.Error err) err))
  | None =>
      (Some (if NullString_Valid (scanReferenceID scan)
             then {| Billet.ID := Billet.ID (scanBillet scan);
                     Billet.BankAccount := Billet.BankAccount (scanBillet scan);
                     Billet.Amount := Billet.Amount (scanBillet scan);
                     Billet.IssuanceDate := Billet.IssuanceDate (scanBillet scan);
                     Billet.ReferenceID :=
                       Some (NullString_String (scanReferenceID scan));
                     Billet.CreatedAt := Billet.CreatedAt (scanBillet scan);
                     Billet.UpdatedAt := Billet.UpdatedAt (scanBillet scan) |}
             else scanBillet scan),
       None)
  end.

(** [BilletUseCase.GetBilletByID], over the repository above. *)
Definition BilletUseCase_GetBilletByID (scan : ScanResult) (billetID : string)
  : ptr Billet.t * errors.t :=
  if bool_decide (billetID = "")
  then (None, Some (errors.NewValidationError "billet_id"
                      "ID do boleto não pode ser vazio"))
  else
    let '(billet, err) := billetRepository_GetByID scan billetID in
    match err with
    | Some _ => (None, err)
    | None => (billet, None)
    end.

(** [handleError]: the status follows the kind of the error itself; a nil
    error panics in the default branch, which calls [err.Error()]. *)
Definition handleError (err : errors.t) : outcome http.Response :=
  match err with
  | Some (errors.NotFoundError _ _ as e) =>
      Returns (http.Error (errors.Error e) http.StatusNotFound)
  | Some (errors.ValidationError _ _ as e) =>
      Returns (http.Error (errors.Error e) http.StatusBadRequest)
  | Some (errors.ConflictError _ _ _ as e) =>
      Returns (http.Error (errors.Error e) http.StatusConflict)
  | Some e =>
      Returns (http.Error ("Erro interno do servidor: " +:+ errors.Error e)
                 http.StatusInternalServerError)
  | None => Panics
  end.

(** [BilletHandler.GetBilletByID]; [pathID] is the path parameter [id] and
    [encode] what [renderJSON] writes for the billet found. *)
Definition BilletHandler_GetBilletByID (encode : ptr Billet.t -> string)
    (scan : ScanResult) (pathID : string) : outcome http.Response :=
  if bool_decide (pathID = "")
  then Returns (http.Error "ID do boleto é obrigatório" http.StatusBadRequest)
  else
    let '(billet, err) := BilletUseCase_GetBilletByID scan pathID in
    match err with
    | Some _ => handleError err
    | None => Returns {| http.StatusCode := http.StatusOK; http.Body := encode billet |}
    end.

(** * Proofs *)

(** ** Loops that dereference their elements *)

Section RangeLoops.
Context {S A : Type}.

Lemma rangeLoop_deref (f : S -> A -> S) (xs : list A) (s : S) :
  rangeLoop (fun s p => x ← deref p; mret (f s x)) (Some <$> xs) s
  = Returns (foldl f s xs).
Proof.
  revert s. induction xs as [|x xs IH]; intros s; [reflexivity|].
  cbn. apply IH.
Qed.

Lemma rangeLoop_deref_inv (f : S -> A -> S) (l : list (ptr A)) (s s' : S) :
  rangeLoop (fun s p => x ← deref p; mret (f s x)) l s = Returns s' ->
  exists xs, l = Some <$> xs /\ s' = foldl f s xs.
Proof.
  revert s. induction l as [|[x|] l IH]; intros s H; cbn in H.
  - exists []. split; [reflexivity|]. by inversion H.
  - destruct (IH _ H) as (xs & -> & ->). by exists (x :: xs).
  - discriminate.
Qed.

Lemma rangeLoop_nil_element (body : S -> ptr A -> outcome S) (l : list (ptr A)) (s : S) :
  (forall s, body s None = Panics) -> None ∈ l -> rangeLoop body l s = Panics.
Proof.
  intros Hb Hin. revert s. induction l as [|p l IH]; intros s.
  - by apply not_elem_of_nil in Hin.
  - cbn. apply elem_of_cons in Hin as [<-|Hin].
    + by rewrite Hb.
    + destruct (body s p); [by apply IH|reflexivity].
Qed.

End RangeLoops.

Lemma nil_or_values {A : Type} (l : list (ptr A)) :
  None ∈ l \/ exists xs, l = Some <$> xs.
Proof.
  induction l as [|[x|] l IH].
  - right. by exists [].
  - destruct IH as [IH|[xs ->]].
    + left. apply elem_of_cons. by right.
    + right. by exists (x :: xs).
  - left. apply elem_of_cons. by left.
Qed.

Lemma values_non_nil {A : Type} (xs : list A) : None ∉ (Some <$> xs : list (ptr A)).
Proof. intros (x & H & _)%list_elem_of_fmap. discriminate. Qed.

Lemma reconcileByReferenceID_values billets payments bs ps st :
  elems billets = Some <$> bs -> elems payments = Some <$> ps ->
  reconcileByReferenceID billets payments st = Returns (byReference bs ps st).
Proof.
  intros Hb Hp. unfold reconcileByReferenceID. rewrite Hb, Hp.
  rewrite rangeLoop_deref. cbn. by rewrite rangeLoop_deref.
Qed.

Lemma matchPayment_values billets bs st payment :
  elems billets = Some <$> bs ->
  matchPayment billets st payment = Returns (stepPayment bs st payment).
Proof.
  intros Hb. unfold matchPayment, stepPayment. rewrite Hb.
  destruct (mapGet _ _); [reflexivity|]. by rewrite rangeLoop_deref.
Qed.

Lemma reconcileByAccountValueDate_values billets payments bs ps st :
  elems billets = Some <$> bs -> elems payments = Some <$> ps ->
  reconcileByAccountValueDate billets payments st
  = Returns (byAccountValueDate bs ps st).
Proof.
  intros Hb Hp. unfold reconcileByAccountValueDate, byAccountValueDate. rewrite Hp.
  clear Hp. revert st. induction ps as [|p ps IH]; intros st; [reflexivity|].
  cbn. rewrite (matchPayment_values _ _ _ _ Hb). cbn. apply IH.
Qed.

Lemma Reconcile_values billets payments bs ps :
  elems billets = Some <$> bs -> elems payments = Some <$> ps ->
  ReconcileBilletsWithPayments billets payments = Returns (Some (reportOf bs ps), None).
Proof.
  intros Hb Hp. unfold ReconcileBilletsWithPayments.
  rewrite (reconcileByReferenceID_values _ _ _ _ _ Hb Hp). cbn.
  rewrite (reconcileByAccountValueDate_values _ _ _ _ _ Hb Hp). cbn.
  rewrite Hb, rangeLoop_deref. reflexivity.
Qed.

Lemma reconcileByReferenceID_nil billets payments st :
  None ∈ elems billets \/ None ∈ elems payments ->
  reconcileByReferenceID billets payments st = Panics.
Proof.
  intros H. unfold reconcileByReferenceID.
  destruct (nil_or_values (elems payments)) as [Hp|[ps Hp]].
  - by rewrite rangeLoop_nil_element.
  - destruct H as [H|H]; [|rewrite Hp in H; by apply values_non_nil in H].
    rewrite Hp, rangeLoop_deref. cbn. by rewrite rangeLoop_nil_element.
Qed.

Lemma Reconcile_returns_inv billets payments res :
  ReconcileBilletsWithPayments billets payments = Returns res ->
  exists bs ps,
    elems billets = Some <$> bs /\ elems payments = Some <$> ps /\
    res = (Some (reportOf bs ps), None).
Proof.
  intros H.
  destruct (nil_or_values (elems billets)) as [Hb|[bs Ebs]].
  { unfold ReconcileBilletsWithPayments in H.
    rewrite reconcileByReferenceID_nil in H by auto. discriminate. }
  destruct (nil_or_values (elems payments)) as [Hp|[ps Eps]].
  { unfold ReconcileBilletsWithPayments in H.
    rewrite reconcileByReferenceID_nil in H by auto. discriminate. }
  exists bs, ps. rewrite (Reconcile_values _ _ _ _ Ebs Eps) in H.
  split; [done|]. split; [done|]. congruence.
Qed.

(** ** Order and arithmetic of binary64 floats *)

Lemma SFcompare_key x y :
  x <> S754_nan -> y <> S754_nan ->
  SFcompare x y = Some (lexCompare (sfKey x) (sfKey y)).
Proof.
  intros Hx Hy.
  destruct x as [sx|sx| |sx mx ex], y as [sy|sy| |sy my ey]; try congruence;
    try destruct sx; try destruct sy; try reflexivity.
  cbn -[Z.compare]. unfold lexCompare; cbn -[Z.compare Z.opp].
  rewrite Z.compare_opp, (Z.compare_antisym ex ey).
    destruct (ex ?= ey); reflexivity.
Qed.

Lemma lexCompare_Lt a b : lexCompare a b = Lt <-> lexLt a b.
Proof.
  unfold lexCompare, lexLt.
  destruct (Z.compare_spec a.1.1 b.1.1), (Z.compare_spec a.1.2 b.1.2),
    (Z.compare_spec a.2 b.2); split; intros; try discriminate; try reflexivity; lia.
Qed.

Lemma lexCompare_Eq a b : lexCompare a b = Eq <-> a = b.
Proof.
  unfold lexCompare. destruct a as [[a1 a2] a3], b as [[b1 b2] b3]. cbn.
  destruct (Z.compare_spec a1 b1), (Z.compare_spec a2 b2),
    (Z.compare_spec a3 b3); split; intros H'; try discriminate; try reflexivity;
    try (inversion H'; lia); subst; reflexivity.
Qed.

Lemma SFcompare_refl x : x <> S754_nan -> SFcompare x x = Some Eq.
Proof.
  intros H. rewrite SFcompare_key by assumption. f_equal. by apply lexCompare_Eq.
Qed.

Lemma is_nan_false x : is_nan x = false <-> Prim2SF x <> S754_nan.
Proof.
  unfold is_nan. rewrite FloatAxioms.eqb_spec. unfold SFeqb. split.
  - intros H E. rewrite E in H. discriminate.
  - intros H. rewrite SFcompare_refl by assumption. reflexivity.
Qed.

Lemma ltb_rank x y :
  is_nan x = false -> is_nan y = false ->
  (x <? y)%float = true <-> lexLt (rank x) (rank y).
Proof.
  intros Hx%is_nan_false Hy%is_nan_false.
  rewrite ltb_spec. unfold SFltb. rewrite SFcompare_key by assumption.
  rewrite <- lexCompare_Lt. unfold rank.
  destruct (lexCompare _ _); split; congruence.
Qed.


Lemma leb_rank x y :
  is_nan x = false -> is_nan y = false ->
  (x <=? y)%float = true <-> lexLt (rank x) (rank y) \/ rank x = rank y.
Proof.
  intros Hx%is_nan_false Hy%is_nan_false.
  rewrite leb_spec. unfold SFleb. rewrite SFcompare_key by assumption.
  rewrite <- lexCompare_Lt, <- lexCompare_Eq. unfold rank.
  destruct (lexCompare _ _); split; intros; try tauto; try congruence.
  destruct H; congruence.
Qed.

Lemma ltb_true_not_nan x y :
  (x <? y)%float = true -> is_nan x = false /\ is_nan y = false.
Proof.
  rewrite ltb_spec, !is_nan_false. unfold SFltb.
  destruct (Prim2SF x), (Prim2SF y); cbn; try discriminate; split; congruence.
Qed.

Lemma eqb_true_not_nan x y :
  (x =? y)%float = true -> is_nan x = false /\ is_nan y = false.
Proof.
  rewrite FloatAxioms.eqb_spec, !is_nan_false. unfold SFeqb.
  destruct (Prim2SF x), (Prim2SF y); cbn; try discriminate; split; congruence.
Qed.

Lemma ltb_leb_false x y : (x <? y)%float = true -> (y <=? x)%float = false.
Proof.
  intros H. destruct (ltb_true_not_nan _ _ H) as [Hx Hy].
  apply (ltb_rank _ _ Hx Hy) in H.
  destruct (y <=? x)%float eqn:E; [|reflexivity].
  apply (leb_rank _ _ Hy Hx) in E. unfold lexLt in *.
  destruct E as [E|E]; [|rewrite E in H]; lia.
Qed.


Lemma eqb_zero_inv x :
  (x =? 0)%float = true -> exists s, Prim2SF x = S754_zero s.
Proof.
  rewrite FloatAxioms.eqb_spec. change (Prim2SF 0) with (S754_zero false).
  unfold SFeqb. destruct (Prim2SF x) as [s|s| |s m e]; cbn; try discriminate.
  - eauto.
  - destruct s; discriminate.
  - destruct s; discriminate.
Qed.

(** Percentage of a zero difference: a zero or a NaN, whatever the amount. *)
Lemma pct_of_zero_diff d a :
  (d =? 0)%float = true ->
  (exists s, Prim2SF (d / a * 100)%float = S754_zero s) \/
  Prim2SF (d / a * 100)%float = S754_nan.
Proof.
  intros [s Hd]%eqb_zero_inv.
  rewrite mul_spec, div_spec, Hd.
  change (Prim2SF 100) with (S754_finite false 7036874417766400 (-46)).
  destruct (Prim2SF a) as [sa|sa| |sa ma ea]; cbn; eauto.
Qed.

Lemma pct_of_zero_diff_cmp d a :
  (d =? 0)%float = true ->
  (d / a * 100 =? 5)%float = false /\ (5 <? d / a * 100)%float = false.
Proof.
  intros H. rewrite FloatAxioms.eqb_spec, ltb_spec.
  change (Prim2SF 5) with (S754_finite false 5629499534213120 (-50)).
  destruct (pct_of_zero_diff d a H) as [[s ->] | ->]; split; reflexivity.
Qed.

(** A positive difference divided by [+0] is [+infinity]. *)
Lemma pct_of_zero_amount d a x :
  a = 0%float -> d = abs x -> is_nan d = false -> (d =? 0)%float = false ->
  Prim2SF (d / a * 100)%float = S754_infinity false.
Proof.
  intros -> -> Hn Hz. rewrite is_nan_false in Hn.
  rewrite FloatAxioms.eqb_spec in Hz. rewrite mul_spec, div_spec.
  rewrite abs_spec in *.
  change (Prim2SF 0) with (S754_zero false) in *.
  change (Prim2SF 100) with (S754_finite false 7036874417766400 (-46)).
  destruct (Prim2SF x) as [s|s| |s m e]; cbn in *; try congruence; reflexivity.
Qed.


(** ** Reading the tracking maps *)

Lemma mapGet_empty k : mapGet ∅ k = false.
Proof. unfold mapGet. by rewrite lookup_empty. Qed.

Lemma mapGet_insert m k k' :
  mapGet (<[k := true]> m) k' = if decide (k = k') then true else mapGet m k'.
Proof.
  unfold mapGet. rewrite lookup_insert. by destruct (decide (k = k')).
Qed.

Lemma foldl_invariant {S X : Type} (Inv : S -> Prop) (step : S -> X -> S) (xs : list X) :
  (forall s x, x ∈ xs -> Inv s -> Inv (step s x)) ->
  forall s, Inv s -> Inv (foldl step s xs).
Proof.
  induction xs as [|x xs IH]; intros Hstep s Hs; [done|].
  cbn. apply IH.
  - intros s' x' Hx'. apply Hstep. apply elem_of_cons. by right.
  - apply Hstep; [|done]. apply elem_of_cons. by left.
Qed.

(** A fold whose steps only append matches appends matches. *)
Lemma foldl_appends {X : Type} (Q : ReconciledBillet.t -> Prop)
    (step : Tracking -> X -> Tracking) (xs : list X) :
  (forall st x, x ∈ xs ->
     exists new, elems (reconciledBillets (step st x))
                 = elems (reconciledBillets st) ++ new /\ Forall Q new) ->
  forall st,
    exists new, elems (reconciledBillets (foldl step st xs))
                = elems (reconciledBillets st) ++ new /\ Forall Q new.
Proof.
  induction xs as [|x xs IH]; intros Hstep st.
  - exists []. by rewrite app_nil_r.
  - cbn. destruct (Hstep st x) as (n1 & E1 & F1); [apply elem_of_cons; by left|].
    destruct (IH (fun st' x' Hx' => Hstep st' x' ltac:(apply elem_of_cons; by right))
                (step st x)) as (n2 & E2 & F2).
    exists (n1 ++ n2). rewrite E2, E1, app_assoc. split; [done|].
    by apply Forall_app.
Qed.

Lemma recordMatch_entries st b p status strategy diff :
  elems (reconciledBillets (recordMatch st b p status strategy diff))
  = elems (reconciledBillets st) ++ [matchEntry b p status strategy diff].
Proof. reflexivity. Qed.

(** ** Matches of the reference strategy *)

Lemma matchByReference_cases index st b :
  matchByReference index st b = st \/
  exists p ref status,
    mapGet (reconciledBilletsMap st) (Billet.ID b) = false /\
    Billet.ReferenceID b = Some ref /\ ref ≠ "" /\ index !! ref = Some p /\
    referenceStatus p b = Some status /\
    matchByReference index st b
    = recordMatch st b p status StrategyReferenceID (amountDiff p b).
Proof.
  unfold matchByReference.
  destruct (mapGet _ _) eqn:Hr; [by left|].
  destruct (Billet.ReferenceID b) as [ref|] eqn:Href; [|by left].
  case_bool_decide as Hne; [by left|].
  destruct (index !! ref) as [p|] eqn:Hp; [|by left].
  destruct (referenceStatus p b) as [status|] eqn:Hs; [|by left].
  right. by exists p, ref, status.
Qed.

Lemma byReference_entries index bs st :
  exists new,
    elems (reconciledBillets (foldl (matchByReference index) st bs))
    = elems (reconciledBillets st) ++ new /\ Forall (fromReference index bs) new.
Proof.
  apply foldl_appends. intros st' b Hb.
  destruct (matchByReference_cases index st' b)
    as [->|(p & ref & status & _ & Href & Hne & Hp & Hs & ->)].
  - exists []. by rewrite app_nil_r.
  - eexists. split; [apply recordMatch_entries|].
    apply Forall_singleton. by exists b, p, ref, status.
Qed.

Lemma considerBillet_cases reconciled p best b :
  considerBillet reconciled p best b = best \/
  (eligible reconciled p b /\ isBetter p best b = true /\
   considerBillet reconciled p best b
   = {| bestBillet := Some b; minDateDiff := dateDiff p b;
        bestAmountDiff := amountDiff p b |}).
Proof.
  unfold considerBillet, eligible.
  destruct (mapGet _ _); [by left|].
  case_bool_decide as Ha; [by left|].
  destruct (_ <? _)%float; [by left|].
  destruct (isBetter p best b); [|by left].
  right. repeat split; try done.
Qed.

Lemma scanBillets_tracks reconciled p bs :
  tracksBillet reconciled p bs (scanBillets reconciled p bs).
Proof.
  unfold scanBillets. apply foldl_invariant; [|by intros b].
  intros best b Hb Hinv.
  destruct (considerBillet_cases reconciled p best b) as [->|(He & _ & ->)]; [done|].
  intros b' [= <-]. done.
Qed.

Lemma stepPayment_cases bs st p :
  stepPayment bs st p = st \/
  exists b,
    b ∈ bs /\ eligible (reconciledBilletsMap st) p b /\
    mapGet (usedPaymentsMap st) (Payment.ID p) = false /\
    bestBillet (scanBillets (reconciledBilletsMap st) p bs) = Some b /\
    stepPayment bs st p
    = recordMatch st b p
        (if (amountDiff p b =? 0)%float then StatusSuccessful else StatusDifferentValue)
        StrategyAccountAmountDate (amountDiff p b).
Proof.
  unfold stepPayment, matchBest.
  destruct (mapGet (usedPaymentsMap st) _) eqn:Hu; [by left|].
  pose proof (scanBillets_tracks (reconciledBilletsMap st) p bs) as Ht.
  destruct (bestBillet _) as [b|] eqn:Hb; [|by left].
  destruct (Ht b Hb) as (Hin & He & _ & Hd). rewrite Hd.
  right. by exists b.
Qed.

Lemma byAccountValueDate_entries bs ps st :
  exists new,
    elems (reconciledBillets (byAccountValueDate bs ps st))
    = elems (reconciledBillets st) ++ new /\ Forall (fromAccount bs ps) new.
Proof.
  apply foldl_appends. intros st' p Hp.
  destruct (stepPayment_cases bs st' p) as [->|(b & Hb & (_ & Ha & Ht) & _ & _ & ->)].
  - exists []. by rewrite app_nil_r.
  - eexists. split; [apply recordMatch_entries|].
    apply Forall_singleton. by exists b, p.
Qed.

(** Every match of a report comes from one of the two strategies. *)
Lemma finalTracking_entries bs ps :
  Forall (fun r => fromReference (indexPayments ∅ ps) bs r \/ fromAccount bs ps r)
    (elems (reconciledBillets (finalTracking bs ps))).
Proof.
  unfold finalTracking.
  destruct (byAccountValueDate_entries bs ps (byReference bs ps initialTracking))
    as (n2 & -> & F2).
  destruct (byReference_entries (indexPayments ∅ ps) bs initialTracking)
    as (n1 & E1 & F1).
  unfold byReference. cbn [usedPaymentsMap initialTracking]. rewrite E1. cbn.
  apply Forall_app. split.
  - eapply Forall_impl; [exact F1|]. auto.
  - eapply Forall_impl; [exact F2|]. auto.
Qed.

(** ** The tracking map of billets counts the matches *)

Lemma matchesOf_app id rs1 rs2 :
  matchesOf id (rs1 ++ rs2) = (matchesOf id rs1 + matchesOf id rs2)%nat.
Proof. unfold matchesOf. by rewrite filter_app, length_app. Qed.

Lemma recordMatch_consistent st b p status strategy diff :
  consistent st -> mapGet (reconciledBilletsMap st) (Billet.ID b) = false ->
  consistent (recordMatch st b p status strategy diff).
Proof.
  intros Hc Hb id. rewrite recordMatch_entries, matchesOf_app, Hc.
  cbn [recordMatch reconciledBilletsMap]. rewrite mapGet_insert.
  unfold matchesOf. rewrite filter_cons, filter_nil. cbn [matchEntry ReconciledBillet.BilletID].
  destruct (decide (Billet.ID b = id)) as [<-|Hne].
  - by rewrite Hb.
  - cbn. destruct (mapGet _ id); lia.
Qed.

Lemma initialTracking_consistent : consistent initialTracking.
Proof. intros id. cbn. by rewrite mapGet_empty. Qed.

Lemma byReference_consistent bs ps st :
  consistent st -> consistent (byReference bs ps st).
Proof.
  unfold byReference. apply foldl_invariant. intros st' b _ Hc.
  destruct (matchByReference_cases (indexPayments (usedPaymentsMap st) ps) st' b)
    as [->|(p & ref & status & Hr & _ & _ & _ & _ & ->)]; [done|].
  by apply recordMatch_consistent.
Qed.

Lemma byAccountValueDate_consistent bs ps st :
  consistent st -> consistent (byAccountValueDate bs ps st).
Proof.
  unfold byAccountValueDate. apply foldl_invariant. intros st' p _ Hc.
  destruct (stepPayment_cases bs st' p) as [->|(b & _ & (Hr & _) & _ & _ & ->)]; [done|].
  by apply recordMatch_consistent.
Qed.

Lemma finalTracking_consistent bs ps : consistent (finalTracking bs ps).
Proof.
  apply byAccountValueDate_consistent, byReference_consistent,
    initialTracking_consistent.
Qed.

(** ** The unmatched billets *)

Lemma nonReconciledOf_filter reconciled bs :
  elems (nonReconciledOf reconciled bs)
  = filter (fun b => mapGet reconciled (Billet.ID b) = false) bs.
Proof.
  unfold nonReconciledOf.
  assert (forall acc,
    elems (foldl (collectNonReconciled reconciled) acc bs)
    = elems acc ++ filter (fun b => mapGet reconciled (Billet.ID b) = false) bs) as H.
  { induction bs as [|b bs IH]; intros acc; cbn [foldl].
    - by rewrite filter_nil, app_nil_r.
    - rewrite IH, filter_cons. unfold collectNonReconciled.
      destruct (mapGet reconciled (Billet.ID b)) eqn:E.
      + by rewrite decide_False by congruence.
      + rewrite decide_True by done. cbn. by rewrite <- app_assoc. }
  by rewrite H.
Qed.

Lemma unmatchedOf_absent id (bs : list Billet.t) :
  id ∉ Billet.ID <$> bs -> unmatchedOf id bs = 0%nat.
Proof.
  unfold unmatchedOf. induction bs as [|b bs IH]; intros H; [done|].
  rewrite filter_cons. rewrite fmap_cons, not_elem_of_cons in H. destruct H as [H1 H2].
  rewrite decide_False by congruence. by apply IH.
Qed.

Lemma unmatchedOf_filter id (P : Billet.t -> Prop) `{!forall b, Decision (P b)} bs :
  (unmatchedOf id (filter P bs) <= unmatchedOf id bs)%nat.
Proof.
  unfold unmatchedOf. induction bs as [|b bs IH]; [done|].
  rewrite !filter_cons. destruct (decide (P b)), (decide (Billet.ID b = id));
    rewrite ?filter_cons; cbn; try rewrite decide_True by done;
    try rewrite decide_False by done; cbn; lia.
Qed.

Lemma unmatchedOf_unique (P : Billet.t -> Prop) `{!forall b, Decision (P b)} bs b :
  NoDup (Billet.ID <$> bs) -> b ∈ bs -> P b ->
  unmatchedOf (Billet.ID b) (filter P bs) = 1%nat.
Proof.
  induction bs as [|x bs IH]; intros Hnd Hin HP.
  - by apply not_elem_of_nil in Hin.
  - rewrite fmap_cons in Hnd. apply NoDup_cons in Hnd as [Hx Hnd].
    destruct (decide (Billet.ID x = Billet.ID b)) as [E|E].
    + assert (b = x) as ->.
      { apply elem_of_cons in Hin as [?|Hin]; [done|].
        exfalso. apply Hx. rewrite E. by apply list_elem_of_fmap_2. }
      rewrite filter_cons, decide_True by done.
      unfold unmatchedOf at 1. rewrite filter_cons, decide_True by done. cbn.
      pose proof (unmatchedOf_filter (Billet.ID x) P bs) as Hle.
      rewrite (unmatchedOf_absent _ _ Hx) in Hle. unfold unmatchedOf in Hle. lia.
    + apply elem_of_cons in Hin as [->|Hin]; [done|].
      rewrite filter_cons. destruct (decide (P x)); [|by apply IH].
      unfold unmatchedOf. rewrite filter_cons, decide_False by done. by apply IH.
Qed.

(** ** The index of payments by reference *)

Lemma indexPayments_snoc used ps q :
  indexPayments used (ps ++ [q]) = indexPayment used (indexPayments used ps) q.
Proof. unfold indexPayments. by rewrite foldl_app. Qed.

(** The index holds, under a reference, the last unused payment carrying it. *)
Lemma indexPayments_last used ps ref p :
  indexPayments used ps !! ref = Some p ->
  exists earlier later,
    ps = earlier ++ p :: later /\ Payment.ReferenceID p = Some ref /\ ref ≠ "" /\
    mapGet used (Payment.ID p) = false /\
    forall q, q ∈ later -> Payment.ReferenceID q = Some ref ->
              mapGet used (Payment.ID q) = true.
Proof.
  revert p. induction ps as [|q ps IH] using rev_ind; intros p H.
  - unfold indexPayments in H. cbn in H. by rewrite lookup_empty in H.
  - rewrite indexPayments_snoc in H. unfold indexPayment in H.
    assert (indexPayments used ps !! ref = Some p ->
            (Payment.ReferenceID q = Some ref -> mapGet used (Payment.ID q) = true) ->
            exists earlier later,
              ps ++ [q] = earlier ++ p :: later /\ Payment.ReferenceID p = Some ref /\
              ref ≠ "" /\ mapGet used (Payment.ID p) = false /\
              forall q', q' ∈ later -> Payment.ReferenceID q' = Some ref ->
                         mapGet used (Payment.ID q') = true) as Hkeep.
    { intros Hp Hq. destruct (IH p Hp) as (e & l & -> & Hr & Hne & Hu & Hl).
      exists e, (l ++ [q]). rewrite <- app_assoc. repeat split; try done.
      intros q' [Hq'|Hq']%elem_of_app; [by apply Hl|].
      apply list_elem_of_singleton in Hq' as ->. done. }
    destruct (Payment.ReferenceID q) as [ref'|] eqn:Hq; [|by apply Hkeep].
    destruct (bool_decide (ref' ≠ "")) eqn:Hne; cbn in H.
    2:{ apply Hkeep; [done|]. intros [= ->]. apply bool_decide_eq_false in Hne.
        destruct (IH p H) as (_ & _ & _ & _ & Hne' & _). by destruct Hne. }
    destruct (mapGet used (Payment.ID q)) eqn:Hu; cbn in H; [by apply Hkeep|].
    apply bool_decide_eq_true in Hne.
    destruct (decide (ref' = ref)) as [->|Hd].
    + rewrite lookup_insert_eq in H. injection H as <-.
      exists ps, []. repeat split; try done. intros q' Hq'. by apply not_elem_of_nil in Hq'.
    + rewrite lookup_insert_ne in H by done. apply Hkeep; [done|]. congruence.
Qed.

(** ** The slices of a report are never nil *)

Lemma recordMatch_non_nil st b p status strategy diff :
  reconciledBillets (recordMatch st b p status strategy diff) ≠ NilSlice.
Proof. discriminate. Qed.

Lemma finalTracking_non_nil bs ps :
  reconciledBillets (finalTracking bs ps) ≠ NilSlice.
Proof.
  unfold finalTracking, byAccountValueDate. apply foldl_invariant.
  - intros st p _ Hst. destruct (stepPayment_cases bs st p) as [->|(b & _ & _ & _ & _ & ->)];
      [done|apply recordMatch_non_nil].
  - unfold byReference. apply foldl_invariant; [|discriminate].
    intros st b _ Hst.
    destruct (matchByReference_cases (indexPayments (usedPaymentsMap initialTracking) ps) st b)
      as [->|(p & ref & status & _ & _ & _ & _ & _ & ->)];
      [done|apply recordMatch_non_nil].
Qed.

Lemma nonReconciledOf_non_nil reconciled bs :
  nonReconciledOf reconciled bs ≠ NilSlice.
Proof.
  unfold nonReconciledOf. apply foldl_invariant; [|discriminate].
  intros acc b _ Hacc. unfold collectNonReconciled.
  destruct (mapGet _ _); [done|discriminate].
Qed.

(** ** Payments that differ only in their reference *)

Lemma rangeLoop_ext {S A : Type} (body1 body2 : S -> A -> outcome S) (l : list A) (s : S) :
  (forall s x, body1 s x = body2 s x) -> rangeLoop body1 l s = rangeLoop body2 l s.
Proof.
  intros H. revert s. induction l as [|x l IH]; intros s; [reflexivity|].
  cbn. rewrite H. destruct (body2 s x); [apply IH|reflexivity].
Qed.

Lemma matchPayment_withReference billets st ref p :
  matchPayment billets st (withReference ref p) = matchPayment billets st p.
Proof. reflexivity. Qed.

(** ** The priority order of the second strategy *)








Lemma considerBillet_guards reconciled p best x :
  (~ eligible reconciled p x /\ considerBillet reconciled p best x = best) \/
  (eligible reconciled p x /\ isBetter p best x = false /\
   considerBillet reconciled p best x = best) \/
  (eligible reconciled p x /\ isBetter p best x = true /\
   considerBillet reconciled p best x
   = {| bestBillet := Some x; minDateDiff := dateDiff p x;
        bestAmountDiff := amountDiff p x |}).
Proof.
  unfold considerBillet, eligible.
  destruct (mapGet _ _); [left; split; [intros [? _]|]; done|].
  case_bool_decide as Ha; [left; split; [intros (_ & ? & _)|]; done|].
  destruct (_ <? _)%float; [left; split; [intros (_ & _ & ?)|]; done|].
  destruct (isBetter p best x); [right; right|right; left]; done.
Qed.



(** ** The properties of a run *)

(** C1, on two billets that carry the reference of one payment: the
    reference strategy pairs both billets with that payment, so two matches
    of the report carry the transaction identifier T100. *)
Theorem payment_consumed_twice :
  exists report,
    ReconcileBilletsWithPayments (Slice [Some B001; Some B001twin]) (Slice [Some T100])
    = Returns (Some report, None) /\
    ReconciledBillet.TransactionID
      <$> elems (ReconciliationResult.ReconciledBillets report) = ["T100"; "T100"] /\
    ~ paymentsConsumedOnce report.
Proof.
  eexists. split; [vm_compute; reflexivity|]. split; [reflexivity|].
  unfold paymentsConsumedOnce. cbn. intros H.
  apply NoDup_cons in H as [H _]. apply H, elem_of_cons. by left.
Qed.

(** C2, as the code has it: a match of the reference strategy is made with
    the last payment, in input order, that carries the reference; the
    payments before it that carry the same reference are not seen by this
    strategy. *)
Theorem reference_match_uses_last_payment billets payments report err :
  ReconcileBilletsWithPayments billets payments = Returns (Some report, err) ->
  forall r,
    r ∈ elems (ReconciliationResult.ReconciledBillets report) ->
    ReconciledBillet.ConciliationStrategy r = StrategyReferenceID ->
    usesLastWithReference payments r.
Proof.
  intros Hrun r Hr Hs.
  destruct (Reconcile_returns_inv _ _ _ Hrun) as (bs & ps & Hb & Hp & [= -> _]).
  cbn in Hr. pose proof (finalTracking_entries bs ps) as Hall.
  rewrite Forall_forall in Hall.
  destruct (Hall r Hr) as [(b & p & ref & status & _ & Href & Hne & Hidx & _ & ->)
                          |(b & p & _ & _ & _ & _ & ->)]; [|discriminate Hs].
  destruct (indexPayments_last _ _ _ _ Hidx) as (e & l & -> & Hpr & _ & _ & Hl).
  exists ref, p, (Some <$> e), (Some <$> l). repeat split; try done.
  - by rewrite Hp, fmap_app, fmap_cons.
  - intros q (q' & [= <-] & Hq)%list_elem_of_fmap Hqr.
    specialize (Hl q Hq Hqr). by rewrite mapGet_empty in Hl.
Qed.

(** On one billet and two payments that carry its reference, the match is
    made with the second payment. *)
Lemma reference_match_uses_last_payment_witness :
  ReconcileBilletsWithPayments (Slice [Some B001]) (Slice [Some T100; Some T100twin])
  = Returns
      (Some
         {| ReconciliationResult.ReconciledBillets :=
              Slice [matchEntry B001 T100twin StatusSuccessful StrategyReferenceID 0];
            ReconciliationResult.NonReconciledBillets := Slice [] |},
       None) /\
  usesLastWithReference (Slice [Some T100; Some T100twin])
    (matchEntry B001 T100twin StatusSuccessful StrategyReferenceID 0).
Proof.
  assert (ReconcileBilletsWithPayments (Slice [Some B001])
            (Slice [Some T100; Some T100twin])
          = Returns
              (Some
                 {| ReconciliationResult.ReconciledBillets :=
                      Slice [matchEntry B001 T100twin StatusSuccessful
                               StrategyReferenceID 0];
                    ReconciliationResult.NonReconciledBillets := Slice [] |},
               None)) as Hrun
    by (vm_compute; reflexivity).
  split; [exact Hrun|].
  apply (reference_match_uses_last_payment _ _ _ _ Hrun).
  - cbn. apply elem_of_cons. by left.
  - reflexivity.
Defined.

(** C2, as stated, fails on two payments that carry the same reference: the
    billet is matched with T104, the second of them, not with T100. *)
Lemma first_payment_with_reference_not_used :
  exists report r,
    ReconcileBilletsWithPayments (Slice [Some B001]) (Slice [Some T100; Some T100twin])
    = Returns (Some report, None) /\
    r ∈ elems (ReconciliationResult.ReconciledBillets report) /\
    ReconciledBillet.ConciliationStrategy r = StrategyReferenceID /\
    ReconciledBillet.TransactionID r = "T104" /\
    ~ usesFirstWithReference (Slice [Some T100; Some T100twin]) r.
Proof.
  eexists _, (matchEntry B001 T100twin StatusSuccessful StrategyReferenceID 0).
  split; [vm_compute; reflexivity|].
  split; [cbn; apply elem_of_cons; by left|].
  split; [reflexivity|]. split; [reflexivity|].
  intros (ref & p & e & l & Hr & _ & Hps & Hp & Hid & He).
  cbn in Hr, Hps, Hid. injection Hr as <-.
  destruct e as [|x e].
  - injection Hps as <- _. discriminate Hid.
  - injection Hps as <- _. apply (He T100); [|reflexivity].
    apply elem_of_cons. by left.
Qed.

(** C3, as the code has it: a match of the account/amount/date strategy
    pairs a billet and a payment that have the same bank account; the
    reference strategy does not compare the accounts. *)
Theorem account_match_same_account billets payments report err :
  ReconcileBilletsWithPayments billets payments = Returns (Some report, err) ->
  forall r,
    r ∈ elems (ReconciliationResult.ReconciledBillets report) ->
    ReconciledBillet.ConciliationStrategy r = StrategyAccountAmountDate ->
    sameAccount billets payments r.
Proof.
  intros Hrun r Hr Hs.
  destruct (Reconcile_returns_inv _ _ _ Hrun) as (bs & ps & Hb & Hp & [= -> _]).
  cbn in Hr. pose proof (finalTracking_entries bs ps) as Hall.
  rewrite Forall_forall in Hall.
  destruct (Hall r Hr) as [(b & p & ref & status & _ & _ & _ & _ & _ & ->)
                          |(b & p & Hbin & Hpin & Hacc & _ & ->)]; [discriminate Hs|].
  exists b, p. rewrite Hb, Hp. repeat split; try done; by apply list_elem_of_fmap_2.
Qed.

(** On the reference data set, B002 and T101 are of the same account. *)
Lemma account_match_same_account_witness :
  (exists report,
     ReconcileBilletsWithPayments sampleBillets samplePayments
     = Returns (Some report, None)) /\
  sameAccount sampleBillets samplePayments
    (matchEntry B002 T101 StatusDifferentValue StrategyAccountAmountDate 5).
Proof.
  assert (exists report,
     ReconcileBilletsWithPayments sampleBillets samplePayments
     = Returns (Some report, None) /\
     matchEntry B002 T101 StatusDifferentValue StrategyAccountAmountDate 5
       ∈ elems (ReconciliationResult.ReconciledBillets report)) as (report & Hrun & Hin).
  { eexists. split; [vm_compute; reflexivity|].
    cbn. rewrite !elem_of_cons. right. right. by left. }
  split; [by exists report|].
  apply (account_match_same_account _ _ _ _ Hrun _ Hin). reflexivity.
Defined.

(** C3, as stated, fails on the reference data set: the reference strategy
    pairs billet B004 of account C910 with payment T103 of account C999. *)
Lemma reference_match_crosses_accounts :
  exists report r,
    ReconcileBilletsWithPayments sampleBillets samplePayments
    = Returns (Some report, None) /\
    r ∈ elems (ReconciliationResult.ReconciledBillets report) /\
    ReconciledBillet.BilletID r = "B004" /\
    ReconciledBillet.TransactionID r = "T103" /\
    ~ sameAccount sampleBillets samplePayments r.
Proof.
  eexists _, (matchEntry B004 T103 StatusSuccessful StrategyReferenceID 0).
  split; [vm_compute; reflexivity|].
  split; [cbn; rewrite !elem_of_cons; right; by left|].
  split; [reflexivity|]. split; [reflexivity|].
  intros (b & p & Hb & Hp & Hbid & Hpid & _ & Hacc).
  cbn in Hb, Hp, Hbid, Hpid.
  repeat (apply elem_of_cons in Hb as [[= ->]|Hb]; [try discriminate Hbid|]);
    [|by apply not_elem_of_nil in Hb].
  repeat (apply elem_of_cons in Hp as [[= ->]|Hp]; [try discriminate Hpid|]);
    [|by apply not_elem_of_nil in Hp].
  discriminate Hacc.
Qed.

(** C4, as the code has it: for a billet of amount [+0.0] and a payment whose
    difference is neither zero nor NaN, the percentage is computed, without a
    fault, as [+infinity], and both strategies skip the pair. *)
Theorem zero_amount_billet_skipped billet payment :
  Billet.Amount billet = 0%float ->
  is_nan (amountDiff payment billet) = false ->
  (amountDiff payment billet =? 0)%float = false ->
  amountDiffPercentage payment billet = infinity /\
  (forall index st,
     (forall ref, Billet.ReferenceID billet = Some ref -> index !! ref = Some payment) ->
     matchByReference index st billet = st) /\
  (forall reconciled best, considerBillet reconciled payment best billet = best).
Proof.
  intros Ha Hn Hz.
  assert (amountDiffPercentage payment billet = infinity) as Hpct.
  { apply Prim2SF_inj. unfold amountDiffPercentage.
    by rewrite (pct_of_zero_amount (amountDiff payment billet) _
                  (Payment.Amount payment - Billet.Amount billet) Ha eq_refl Hn Hz). }
  split; [exact Hpct|]. split.
  - intros index st Hidx. unfold matchByReference.
    destruct (mapGet _ _); [done|].
    destruct (Billet.ReferenceID billet) as [ref|]; [|done].
    case_bool_decide; [done|]. rewrite (Hidx ref eq_refl).
    unfold referenceStatus. by rewrite Hz, Hpct.
  - intros reconciled best. unfold considerBillet. rewrite Hpct.
    destruct (mapGet _ _); [done|]. by case_bool_decide.
Qed.

(** A billet of amount [+0.0] and a payment of 10 under its reference are
    paired by neither strategy. *)
Lemma zero_amount_billet_skipped_witness :
  Billet.Amount zeroBillet = 0%float /\
  is_nan (amountDiff tenPayment zeroBillet) = false /\
  (amountDiff tenPayment zeroBillet =? 0)%float = false /\
  amountDiffPercentage tenPayment zeroBillet = infinity /\
  matchByReference {["REF006" := tenPayment]} initialTracking zeroBillet = initialTracking /\
  considerBillet ∅ tenPayment noBest zeroBillet = noBest.
Proof.
  split; [reflexivity|]. split; [reflexivity|]. split; [reflexivity|].
  destruct (zero_amount_billet_skipped zeroBillet tenPayment eq_refl eq_refl eq_refl)
    as (Hpct & Href & Hacc).
  split; [exact Hpct|]. split; [|apply Hacc].
  apply Href. intros ref [= <-]. reflexivity.
Defined.

(** C4, as stated, fails on a billet of amount [-0.0], which [==] holds equal
    to 0: with a payment of 10 the percentage is [-infinity], within the
    tolerance, and both strategies accept the pair. *)
Lemma negative_zero_billet_matched :
  (Billet.Amount negZeroBillet =? 0)%float = true /\
  (amountDiff tenPayment negZeroBillet =? 0)%float = false /\
  amountDiffPercentage tenPayment negZeroBillet = neg_infinity /\
  ReconcileBilletsWithPayments (Slice [Some negZeroBillet]) (Slice [Some tenPayment])
  = Returns
      (Some
         {| ReconciliationResult.ReconciledBillets :=
              Slice [matchEntry negZeroBillet tenPayment StatusDifferentValue
                       StrategyReferenceID 10];
            ReconciliationResult.NonReconciledBillets := Slice [] |},
       None) /\
  bestBillet (considerBillet ∅ tenPayment noBest negZeroBillet) = Some negZeroBillet.
Proof.
  split; [reflexivity|]. split; [reflexivity|]. split; [reflexivity|].
  split; [vm_compute; reflexivity|reflexivity].
Qed.

(** C5, as the code has it: when the input billets have pairwise distinct
    identifiers, every one of them is either in exactly one match and not in
    the unmatched sequence, or in no match and exactly once in the unmatched
    sequence. *)
Theorem billet_in_exactly_one_sequence billets payments report err :
  ReconcileBilletsWithPayments billets payments = Returns (Some report, err) ->
  NoDup (billetIDs billets) ->
  forall b, Some b ∈ elems billets -> inExactlyOneSequence report b.
Proof.
  intros Hrun Hnd b Hin.
  destruct (Reconcile_returns_inv _ _ _ Hrun) as (bs & ps & Hb & Hp & [= -> _]).
  unfold billetIDs in Hnd. rewrite Hb in Hnd, Hin.
  replace (omap id (Some <$> bs)) with bs in Hnd
    by (clear; induction bs; cbn; congruence).
  apply list_elem_of_fmap in Hin as (b' & [= <-] & Hin).
  unfold inExactlyOneSequence. cbn.
  rewrite (finalTracking_consistent bs ps (Billet.ID b)), nonReconciledOf_filter.
  destruct (mapGet _ (Billet.ID b)) eqn:Hr.
  - left. split; [done|]. apply unmatchedOf_absent.
    intros (c & E & (Hc & _)%list_elem_of_filter)%list_elem_of_fmap. congruence.
  - right. split; [done|]. split.
    + by apply unmatchedOf_unique.
    + by apply list_elem_of_filter.
Qed.

(** On the reference data set, whose billets have distinct identifiers, B003
    is in exactly one of the two sequences. *)
Lemma billet_in_exactly_one_sequence_witness :
  NoDup (billetIDs sampleBillets) /\
  (exists report,
     ReconcileBilletsWithPayments sampleBillets samplePayments
     = Returns (Some report, None) /\ inExactlyOneSequence report B003).
Proof.
  assert (NoDup (billetIDs sampleBillets)) as Hnd.
  { apply (bool_decide_unpack _). vm_compute. exact I. }
  split; [exact Hnd|].
  assert (exists report,
     ReconcileBilletsWithPayments sampleBillets samplePayments
     = Returns (Some report, None)) as (report & Hrun).
  { eexists. vm_compute. reflexivity. }
  exists report. split; [exact Hrun|].
  apply (billet_in_exactly_one_sequence _ _ _ _ Hrun Hnd).
  cbn. rewrite !elem_of_cons. right. right. by left.
Defined.

(** C5, as stated, fails on two billets that carry the same identifier: with
    no payment, that identifier is twice in the unmatched sequence. *)
Lemma duplicate_billet_twice_unmatched :
  exists report,
    ReconcileBilletsWithPayments (Slice [Some B001; Some B001]) (Slice [])
    = Returns (Some report, None) /\
    unmatchedOf "B001" (elems (ReconciliationResult.NonReconciledBillets report)) = 2%nat /\
    ~ inExactlyOneSequence report B001.
Proof.
  eexists. split; [vm_compute; reflexivity|]. split; [reflexivity|].
  unfold inExactlyOneSequence.
  intros [[H _]|(_ & H & _)]; vm_compute in H; discriminate H.
Qed.

(** C6: on the reference data set the engine matches B001 with T100 and B004
    with T103 by reference, with no difference, then B002 with T101 by
    account, amount and date with a difference of 5.00, and B003 with T102 by
    account, amount and date with no difference; no billet is left
    unmatched. *)
Theorem reference_data_set_report :
  ReconcileBilletsWithPayments sampleBillets samplePayments
  = Returns
      (Some
         {| ReconciliationResult.ReconciledBillets :=
              Slice
                [ {| ReconciledBillet.BilletID := "B001";
                     ReconciledBillet.BankAccount := "C123";
                     ReconciledBillet.TransactionID := "T100";
                     ReconciledBillet.ConciliationStatus := "conciliado_com_sucesso";
                     ReconciledBillet.ConciliationStrategy := "reference_id";
                     ReconciledBillet.ReferenceID := Some "REF001";
                     ReconciledBillet.AmountDiff := 0 |};
                  {| ReconciledBillet.BilletID := "B004";
                     ReconciledBillet.BankAccount := "C910";
                     ReconciledBillet.TransactionID := "T103";
                     ReconciledBillet.ConciliationStatus := "conciliado_com_sucesso";
                     ReconciledBillet.ConciliationStrategy := "reference_id";
                     ReconciledBillet.ReferenceID := Some "REF004";
                     ReconciledBillet.AmountDiff := 0 |};
                  {| ReconciledBillet.BilletID := "B002";
                     ReconciledBillet.BankAccount := "C345";
                     ReconciledBillet.TransactionID := "T101";
                     ReconciledBillet.ConciliationStatus := "valor_diferente";
                     ReconciledBillet.ConciliationStrategy := "conta_valor_data";
                     ReconciledBillet.ReferenceID := None;
                     ReconciledBillet.AmountDiff := 5 |};
                  {| ReconciledBillet.BilletID := "B003";
                     ReconciledBillet.BankAccount := "C678";
                     ReconciledBillet.TransactionID := "T102";
                     ReconciledBillet.ConciliationStatus := "conciliado_com_sucesso";
                     ReconciledBillet.ConciliationStrategy := "conta_valor_data";
                     ReconciledBillet.ReferenceID := Some "REF003";
                     ReconciledBillet.AmountDiff := 0 |} ];
            ReconciliationResult.NonReconciledBillets := Slice [] |},
       None).
Proof. vm_compute. reflexivity. Qed.





(** C9: a match of the account/amount/date strategy carries the reference of
    its billet, and the references of the payments have no part in what this
    strategy does. *)
Theorem account_match_carries_billet_reference billets payments :
  (forall report err,
     ReconcileBilletsWithPayments billets payments = Returns (Some report, err) ->
     forall r,
       r ∈ elems (ReconciliationResult.ReconciledBillets report) ->
       ReconciledBillet.ConciliationStrategy r = StrategyAccountAmountDate ->
       exists b,
         Some b ∈ elems billets /\
         ReconciledBillet.BilletID r = Billet.ID b /\
         ReconciledBillet.ReferenceID r = Billet.ReferenceID b) /\
  (forall (st : Tracking) (g : Payment.t -> ptr string),
     reconcileByAccountValueDate billets
       (Slice (fmap (fun p => withReference (g p) p) <$> elems payments)) st
     = reconcileByAccountValueDate billets payments st).
Proof.
  split.
  - intros report err Hrun r Hr Hs.
    destruct (Reconcile_returns_inv _ _ _ Hrun) as (bs & ps & Hb & Hp & [= -> _]).
    cbn in Hr. pose proof (finalTracking_entries bs ps) as Hall.
    rewrite Forall_forall in Hall.
    destruct (Hall r Hr) as [(b & p & ref & status & _ & _ & _ & _ & _ & ->)
                            |(b & p & Hbin & _ & _ & _ & ->)]; [discriminate Hs|].
    exists b. rewrite Hb. split; [by apply list_elem_of_fmap_2|done].
  - intros st g. unfold reconcileByAccountValueDate. cbn [elems].
    generalize (elems payments). intros l. revert st.
    induction l as [|[p|] l IH]; intros st; [reflexivity| |reflexivity].
    cbn. rewrite matchPayment_withReference.
    destruct (matchPayment billets st p); [apply IH|reflexivity].
Qed.

(** On the reference data set, the match of B003 with T102 carries REF003,
    the reference of B003, not REF999. *)
Lemma account_match_carries_billet_reference_witness :
  (exists report,
     ReconcileBilletsWithPayments sampleBillets samplePayments
     = Returns (Some report, None)) /\
  (exists b,
     Some b ∈ elems sampleBillets /\ Billet.ID b = "B003" /\
     Billet.ReferenceID b = Some "REF003").
Proof.
  assert (exists report,
     ReconcileBilletsWithPayments sampleBillets samplePayments
     = Returns (Some report, None) /\
     matchEntry B003 T102 StatusSuccessful StrategyAccountAmountDate 0
       ∈ elems (ReconciliationResult.ReconciledBillets report)) as (report & Hrun & Hin).
  { eexists. split; [vm_compute; reflexivity|].
    cbn. rewrite !elem_of_cons. right. right. right. by left. }
  split; [by exists report|].
  destruct (proj1 (account_match_carries_billet_reference sampleBillets samplePayments)
              _ _ Hrun _ Hin eq_refl) as (b & Hb & Hid & Href).
  exists b. split; [exact Hb|]. split; [symmetry; exact Hid|symmetry; exact Href].
Defined.

(** C10, as the code has it: when no element of the two slices is a nil
    pointer (the slices themselves may be nil or empty), the run returns a
    nil error and a report whose two sequences are not nil. *)
Theorem reconcile_returns_report billets payments :
  None ∉ elems billets -> None ∉ elems payments ->
  exists report,
    ReconcileBilletsWithPayments billets payments = Returns (Some report, None) /\
    ReconciliationResult.ReconciledBillets report ≠ NilSlice /\
    ReconciliationResult.NonReconciledBillets report ≠ NilSlice.
Proof.
  intros Hb Hp.
  destruct (nil_or_values (elems billets)) as [?|[bs Ebs]]; [done|].
  destruct (nil_or_values (elems payments)) as [?|[ps Eps]]; [done|].
  exists (reportOf bs ps). split; [by apply Reconcile_values|].
  split; [apply finalTracking_non_nil|apply nonReconciledOf_non_nil].
Qed.

(** A nil slice of billets and one payment: the run returns. *)
Lemma reconcile_returns_report_witness :
  (None ∉ elems (NilSlice : slice (ptr Billet.t))) /\
  (None ∉ elems (Slice [Some T100])) /\
  exists report,
    ReconcileBilletsWithPayments NilSlice (Slice [Some T100])
    = Returns (Some report, None) /\
    ReconciliationResult.ReconciledBillets report ≠ NilSlice /\
    ReconciliationResult.NonReconciledBillets report ≠ NilSlice.
Proof.
  assert (None ∉ elems (NilSlice : slice (ptr Billet.t))) as Hb.
  { cbn. apply not_elem_of_nil. }
  assert (None ∉ elems (Slice [Some T100])) as Hp.
  { cbn. intros [H|H]%elem_of_cons; [discriminate H|by apply not_elem_of_nil in H]. }
  split; [exact Hb|]. split; [exact Hp|].
  apply (reconcile_returns_report NilSlice (Slice [Some T100]) Hb Hp).
Defined.

(** C10, as stated, fails on a slice that holds a nil pointer: the first loop
    over the billets dereferences it and the run panics instead of
    returning. *)
Lemma nil_billet_panics :
  ReconcileBilletsWithPayments (Slice [None]) NilSlice = Panics /\
  ~ exists report err,
      ReconcileBilletsWithPayments (Slice [None]) NilSlice
      = Returns (Some report, err).
Proof.
  split; [reflexivity|]. intros (report & err & H). discriminate H.
Qed.

(** * Further properties of the engine *)

(** ** Every match is a billet of the input paired with a payment of the input *)

Lemma omap_id_values {A : Type} (xs : list A) : omap id (Some <$> xs) = xs.
Proof. induction xs; cbn; congruence. Qed.

Lemma referenceStatus_statusOfDiff p b status :
  referenceStatus p b = Some status -> status = statusOfDiff (amountDiff p b).
Proof.
  unfold referenceStatus, statusOfDiff.
  destruct (amountDiff p b =? 0)%float; [congruence|].
  destruct (_ <=? _)%float; congruence.
Qed.

Lemma leb_ltb_false x y : (x <=? y)%float = true -> (y <? x)%float = false.
Proof.
  intros H. destruct (y <? x)%float eqn:E; [|reflexivity].
  apply ltb_leb_false in E. congruence.
Qed.

Lemma referenceStatus_within_tolerance p b status :
  referenceStatus p b = Some status ->
  (TolerancePercentage <? amountDiffPercentage p b)%float = false.
Proof.
  unfold referenceStatus, amountDiffPercentage, TolerancePercentage.
  destruct (amountDiff p b =? 0)%float eqn:Hz.
  - intros _. by destruct (pct_of_zero_diff_cmp _ (Billet.Amount b) Hz).
  - destruct (_ <=? _)%float eqn:Hl; [|discriminate].
    intros _. by apply leb_ltb_false.
Qed.

(** What the two strategies have in common about a match. *)
Lemma finalTracking_pairs bs ps :
  Forall (fun r => exists b p,
            b ∈ bs /\ p ∈ ps /\ matchOf b p r /\
            (TolerancePercentage <? amountDiffPercentage p b)%float = false)
    (elems (reconciledBillets (finalTracking bs ps))).
Proof.
  eapply Forall_impl; [apply finalTracking_entries|]. cbn.
  intros r [(b & p & ref & status & Hb & _ & _ & Hidx & Hs & ->)
           |(b & p & Hb & Hp & _ & Htol & ->)].
  - destruct (indexPayments_last _ _ _ _ Hidx) as (e & l & -> & _).
    exists b, p. split; [done|]. split; [set_solver|].
    split; [|by eapply referenceStatus_within_tolerance].
    exists StrategyReferenceID. split; [by left|].
    by rewrite (referenceStatus_statusOfDiff _ _ _ Hs).
  - exists b, p. split; [done|]. split; [done|]. split; [|done].
    exists StrategyAccountAmountDate. split; [by right|done].
Qed.

Lemma report_pairs billets payments report err :
  ReconcileBilletsWithPayments billets payments = Returns (Some report, err) ->
  forall r, r ∈ elems (ReconciliationResult.ReconciledBillets report) ->
  exists b p,
    Some b ∈ elems billets /\ Some p ∈ elems payments /\ matchOf b p r /\
    (TolerancePercentage <? amountDiffPercentage p b)%float = false.
Proof.
  intros Hrun r Hr.
  destruct (Reconcile_returns_inv _ _ _ Hrun) as (bs & ps & Hb & Hp & [= -> _]).
  pose proof (finalTracking_pairs bs ps) as Hall. rewrite Forall_forall in Hall.
  destruct (Hall r Hr) as (b & p & Hbin & Hpin & Hm & Ht).
  exists b, p. rewrite Hb, Hp.
  repeat split; try done; by apply list_elem_of_fmap_2.
Qed.

(** X1: every match of a report names a billet and a payment of the input,
    carries the bank account and the reference of that billet, and its
    amount difference is the absolute difference of the two amounts. *)
Theorem match_names_input_pair billets payments report err :
  ReconcileBilletsWithPayments billets payments = Returns (Some report, err) ->
  forall r, r ∈ elems (ReconciliationResult.ReconciledBillets report) ->
  exists b p,
    Some b ∈ elems billets /\ Some p ∈ elems payments /\
    ReconciledBillet.BilletID r = Billet.ID b /\
    ReconciledBillet.TransactionID r = Payment.ID p /\
    ReconciledBillet.BankAccount r = Billet.BankAccount b /\
    ReconciledBillet.ReferenceID r = Billet.ReferenceID b /\
    ReconciledBillet.AmountDiff r
    = math.Abs (Payment.Amount p - Billet.Amount b)%float.
Proof.
  intros Hrun r Hr.
  destruct (report_pairs _ _ _ _ Hrun r Hr) as (b & p & Hb & Hp & (s & _ & ->) & _).
  by exists b, p.
Qed.

(** X2: the status of a match is a function of its amount difference:
    "conciliado_com_sucesso" when the difference equals zero and
    "valor_diferente" otherwise; "nao_conciliado" is never reported. *)
Theorem status_follows_amount_diff billets payments report err :
  ReconcileBilletsWithPayments billets payments = Returns (Some report, err) ->
  forall r, r ∈ elems (ReconciliationResult.ReconciledBillets report) ->
  ReconciledBillet.ConciliationStatus r
  = (if (ReconciledBillet.AmountDiff r =? 0)%float
     then StatusSuccessful else StatusDifferentValue) /\
  ReconciledBillet.ConciliationStatus r ≠ StatusNotReconciled.
Proof.
  intros Hrun r Hr.
  destruct (report_pairs _ _ _ _ Hrun r Hr) as (b & p & _ & _ & (s & _ & ->) & _).
  cbn. unfold statusOfDiff. split; [done|]. by destruct (_ =? _)%float.
Qed.

(** X3: no match is reported for a pair whose percentage of difference is
    above the tolerance. *)
Theorem match_within_tolerance billets payments report err :
  ReconcileBilletsWithPayments billets payments = Returns (Some report, err) ->
  forall r, r ∈ elems (ReconciliationResult.ReconciledBillets report) ->
  exists b p,
    Some b ∈ elems billets /\ Some p ∈ elems payments /\
    ReconciledBillet.BilletID r = Billet.ID b /\
    ReconciledBillet.TransactionID r = Payment.ID p /\
    (TolerancePercentage <? amountDiffPercentage p b)%float = false.
Proof.
  intros Hrun r Hr.
  destruct (report_pairs _ _ _ _ Hrun r Hr) as (b & p & Hb & Hp & (s & _ & ->) & Ht).
  by exists b, p.
Qed.

Lemma sample_run :
  ReconcileBilletsWithPayments sampleBillets samplePayments
  = Returns (Some sampleReport, None).
Proof. vm_compute. reflexivity. Qed.

Lemma sample_match_B002 :
  matchEntry B002 T101 StatusDifferentValue StrategyAccountAmountDate 5
    ∈ elems (ReconciliationResult.ReconciledBillets sampleReport).
Proof. cbn. rewrite !elem_of_cons. right. right. by left. Qed.

(** On the reference data set, the match of B002 names a pair of the input. *)
Lemma match_names_input_pair_witness :
  ReconcileBilletsWithPayments sampleBillets samplePayments
  = Returns (Some sampleReport, None) /\
  exists b p,
    Some b ∈ elems sampleBillets /\ Some p ∈ elems samplePayments /\
    Billet.ID b = "B002" /\ Payment.ID p = "T101" /\
    math.Abs (Payment.Amount p - Billet.Amount b)%float = 5%float.
Proof.
  split; [exact sample_run|].
  destruct (match_names_input_pair _ _ _ _ sample_run _ sample_match_B002)
    as (b & p & Hb & Hp & Hbid & Hpid & _ & _ & Hd).
  exists b, p. repeat split; try done; by symmetry.
Defined.

(** On the reference data set, the match of B002, of difference 5, is
    reported as "valor_diferente". *)
Lemma status_follows_amount_diff_witness :
  ReconcileBilletsWithPayments sampleBillets samplePayments
  = Returns (Some sampleReport, None) /\
  StatusDifferentValue ≠ StatusNotReconciled.
Proof.
  split; [exact sample_run|].
  exact (proj2 (status_follows_amount_diff _ _ _ _ sample_run _ sample_match_B002)).
Defined.

(** On the reference data set, the pair of the match of B002 is within the
    tolerance. *)
Lemma match_within_tolerance_witness :
  ReconcileBilletsWithPayments sampleBillets samplePayments
  = Returns (Some sampleReport, None) /\
  exists b p,
    Billet.ID b = "B002" /\ Payment.ID p = "T101" /\
    (TolerancePercentage <? amountDiffPercentage p b)%float = false.
Proof.
  split; [exact sample_run|].
  destruct (match_within_tolerance _ _ _ _ sample_run _ sample_match_B002)
    as (b & p & _ & _ & Hbid & Hpid & Ht).
  exists b, p. repeat split; try done; by symmetry.
Defined.

(** ** Billets are matched at most once, and the rest is reported unmatched *)

Lemma matchesOf_positive id rs :
  id ∈ ReconciledBillet.BilletID <$> rs -> (1 <= matchesOf id rs)%nat.
Proof.
  intros (r & -> & Hr)%list_elem_of_fmap. unfold matchesOf.
  assert (r ∈ filter (fun r' => ReconciledBillet.BilletID r' = ReconciledBillet.BilletID r) rs)
    as Hin by (by apply list_elem_of_filter).
  destruct (filter _ rs); [by apply not_elem_of_nil in Hin|cbn; lia].
Qed.

Lemma matchesOf_at_most_one_NoDup rs :
  (forall id, (matchesOf id rs <= 1)%nat) -> NoDup (ReconciledBillet.BilletID <$> rs).
Proof.
  induction rs as [|r rs IH]; intros H; [apply NoDup_nil_2|].
  rewrite fmap_cons. apply NoDup_cons. split.
  - intros Hin%matchesOf_positive.
    specialize (H (ReconciledBillet.BilletID r)). unfold matchesOf in *.
    rewrite filter_cons, decide_True in H by done. cbn in H. lia.
  - apply IH. intros id. specialize (H id). unfold matchesOf in *.
    rewrite filter_cons in H. destruct (decide _); cbn in H; lia.
Qed.

Lemma finalTracking_billet_ids_distinct bs ps :
  NoDup (ReconciledBillet.BilletID <$> elems (reconciledBillets (finalTracking bs ps))).
Proof.
  apply matchesOf_at_most_one_NoDup. intros id.
  rewrite (finalTracking_consistent bs ps id). destruct (mapGet _ _); lia.
Qed.

(** X4: for every input, no two matches of a report carry the same billet
    identifier. *)
Theorem billet_matched_at_most_once billets payments report err :
  ReconcileBilletsWithPayments billets payments = Returns (Some report, err) ->
  NoDup (ReconciledBillet.BilletID
           <$> elems (ReconciliationResult.ReconciledBillets report)).
Proof.
  intros Hrun.
  destruct (Reconcile_returns_inv _ _ _ Hrun) as (bs & ps & Hb & Hp & [= -> _]).
  cbn. apply finalTracking_billet_ids_distinct.
Qed.

(** On two billets that carry the same identifier and one payment, one match
    only is made. *)
Lemma billet_matched_at_most_once_witness :
  ReconcileBilletsWithPayments (Slice [Some B001; Some B001]) (Slice [Some T100])
  = Returns
      (Some {| ReconciliationResult.ReconciledBillets :=
                 Slice [matchEntry B001 T100 StatusSuccessful StrategyReferenceID 0];
               ReconciliationResult.NonReconciledBillets := Slice [] |},
       None) /\
  NoDup ["B001"].
Proof.
  assert (ReconcileBilletsWithPayments (Slice [Some B001; Some B001]) (Slice [Some T100])
          = Returns
              (Some {| ReconciliationResult.ReconciledBillets :=
                         Slice [matchEntry B001 T100 StatusSuccessful
                                  StrategyReferenceID 0];
                       ReconciliationResult.NonReconciledBillets := Slice [] |},
               None)) as Hrun by (vm_compute; reflexivity).
  split; [exact Hrun|].
  exact (billet_matched_at_most_once _ _ _ _ Hrun).
Defined.

(** X5: for every input, the unmatched sequence is the input billets, in
    input order, whose identifier no match carries. *)
Theorem unmatched_are_the_billets_without_match billets payments report err :
  ReconcileBilletsWithPayments billets payments = Returns (Some report, err) ->
  elems (ReconciliationResult.NonReconciledBillets report)
  = filter
      (fun b => matchesOf (Billet.ID b)
                  (elems (ReconciliationResult.ReconciledBillets report)) = 0%nat)
      (billetsOf billets).
Proof.
  intros Hrun.
  destruct (Reconcile_returns_inv _ _ _ Hrun) as (bs & ps & Hb & Hp & [= -> _]).
  unfold billetsOf. rewrite Hb, omap_id_values. cbn.
  rewrite nonReconciledOf_filter. apply list_filter_iff. intros b.
  rewrite (finalTracking_consistent bs ps (Billet.ID b)).
  destruct (mapGet _ _); split; intros; congruence.
Qed.

(** With no payment, the two billets are reported unmatched in their order. *)
Lemma unmatched_are_the_billets_without_match_witness :
  ReconcileBilletsWithPayments (Slice [Some B002; Some B001]) NilSlice
  = Returns
      (Some {| ReconciliationResult.ReconciledBillets := Slice [];
               ReconciliationResult.NonReconciledBillets := Slice [B002; B001] |},
       None) /\
  [B002; B001]
  = filter (fun b => matchesOf (Billet.ID b) [] = 0%nat)
      (billetsOf (Slice [Some B002; Some B001])).
Proof.
  assert (ReconcileBilletsWithPayments (Slice [Some B002; Some B001]) NilSlice
          = Returns
              (Some {| ReconciliationResult.ReconciledBillets := Slice [];
                       ReconciliationResult.NonReconciledBillets :=
                         Slice [B002; B001] |},
               None)) as Hrun by (vm_compute; reflexivity).
  split; [exact Hrun|].
  exact (unmatched_are_the_billets_without_match _ _ _ _ Hrun).
Defined.

(** ** The order of the matches *)

(** A fold whose steps append at most one match each, keyed by the element
    they treat, appends matches in the order of the elements. *)
Lemma foldl_appends_ordered {X : Type} (key : X -> string)
    (rkey : ReconciledBillet.t -> string) (Q : ReconciledBillet.t -> Prop)
    (step : Tracking -> X -> Tracking) (xs : list X) :
  (forall st x, x ∈ xs ->
     elems (reconciledBillets (step st x)) = elems (reconciledBillets st) \/
     exists r, elems (reconciledBillets (step st x))
               = elems (reconciledBillets st) ++ [r] /\ rkey r = key x /\ Q r) ->
  forall st,
    exists new, elems (reconciledBillets (foldl step st xs))
                = elems (reconciledBillets st) ++ new /\
                Forall Q new /\ sublist (rkey <$> new) (key <$> xs).
Proof.
  induction xs as [|x xs IH]; intros Hstep st.
  - exists []. rewrite app_nil_r. repeat split; [done|constructor].
  - cbn [foldl].
    destruct (IH (fun st' x' Hx' => Hstep st' x' ltac:(apply elem_of_cons; by right))
                (step st x)) as (n2 & E2 & F2 & S2).
    destruct (Hstep st x) as [E1|(r & E1 & Hk & Hq)]; [apply elem_of_cons; by left| |].
    + exists n2. rewrite E2, E1. repeat split; try done.
      rewrite fmap_cons. by apply sublist_cons.
    + exists (r :: n2). rewrite E2, E1, <- app_assoc. repeat split; try done.
      * by apply Forall_cons.
      * rewrite !fmap_cons, Hk. by apply sublist_skip.
Qed.

Lemma byReference_ordered index bs st :
  exists new,
    elems (reconciledBillets (foldl (matchByReference index) st bs))
    = elems (reconciledBillets st) ++ new /\
    Forall (fun r => ReconciledBillet.ConciliationStrategy r = StrategyReferenceID) new /\
    sublist (ReconciledBillet.BilletID <$> new) (Billet.ID <$> bs).
Proof.
  apply foldl_appends_ordered. intros st' b _.
  destruct (matchByReference_cases index st' b)
    as [->|(p & ref & status & _ & _ & _ & _ & _ & ->)]; [by left|].
  right. eexists. split; [apply recordMatch_entries|done].
Qed.

Lemma byAccountValueDate_ordered bs ps st :
  exists new,
    elems (reconciledBillets (byAccountValueDate bs ps st))
    = elems (reconciledBillets st) ++ new /\
    Forall (fun r => ReconciledBillet.ConciliationStrategy r = StrategyAccountAmountDate) new /\
    sublist (ReconciledBillet.TransactionID <$> new) (Payment.ID <$> ps).
Proof.
  apply foldl_appends_ordered. intros st' p _.
  destruct (stepPayment_cases bs st' p) as [->|(b & _ & _ & _ & _ & ->)]; [by left|].
  right. eexists. split; [apply recordMatch_entries|done].
Qed.

(** X6: the matches of a report are the matches by reference, in the input
    order of their billets, followed by the matches by account, amount and
    date, in the input order of their payments. *)
Theorem matches_in_strategy_then_input_order billets payments report err :
  ReconcileBilletsWithPayments billets payments = Returns (Some report, err) ->
  exists byReference byAccount,
    elems (ReconciliationResult.ReconciledBillets report) = byReference ++ byAccount /\
    Forall (fun r => ReconciledBillet.ConciliationStrategy r = StrategyReferenceID)
      byReference /\
    Forall (fun r => ReconciledBillet.ConciliationStrategy r = StrategyAccountAmountDate)
      byAccount /\
    sublist (ReconciledBillet.BilletID <$> byReference) (Billet.ID <$> billetsOf billets) /\
    sublist (ReconciledBillet.TransactionID <$> byAccount)
      (Payment.ID <$> paymentsOf payments).
Proof.
  intros Hrun.
  destruct (Reconcile_returns_inv _ _ _ Hrun) as (bs & ps & Hb & Hp & [= -> _]).
  unfold billetsOf, paymentsOf. rewrite Hb, Hp, !omap_id_values. cbn.
  unfold finalTracking.
  destruct (byAccountValueDate_ordered bs ps (byReference bs ps initialTracking))
    as (n2 & -> & F2 & S2).
  destruct (byReference_ordered (indexPayments ∅ ps) bs initialTracking)
    as (n1 & E1 & F1 & S1).
  unfold byReference. cbn [usedPaymentsMap initialTracking]. rewrite E1. cbn.
  by exists n1, n2.
Qed.

(** On the reference data set: B001 and B004 by reference, then T101 and
    T102 by account. *)
Lemma matches_in_strategy_then_input_order_witness :
  ReconcileBilletsWithPayments sampleBillets samplePayments
  = Returns (Some sampleReport, None) /\
  exists byReference byAccount,
    elems (ReconciliationResult.ReconciledBillets sampleReport)
    = byReference ++ byAccount /\
    sublist (ReconciledBillet.BilletID <$> byReference)
      (Billet.ID <$> billetsOf sampleBillets) /\
    sublist (ReconciledBillet.TransactionID <$> byAccount)
      (Payment.ID <$> paymentsOf samplePayments).
Proof.
  split; [exact sample_run|].
  destruct (matches_in_strategy_then_input_order _ _ _ _ sample_run)
    as (l1 & l2 & E & _ & _ & S1 & S2).
  by exists l1, l2.
Defined.

(** ** The tracking map of payments *)

Lemma consumptionsOf_app id rs1 rs2 :
  consumptionsOf id (rs1 ++ rs2)
  = (consumptionsOf id rs1 + consumptionsOf id rs2)%nat.
Proof. unfold consumptionsOf. by rewrite filter_app, length_app. Qed.

Lemma consumptionsOf_zero id rs :
  consumptionsOf id rs = 0%nat <-> id ∉ ReconciledBillet.TransactionID <$> rs.
Proof.
  unfold consumptionsOf. induction rs as [|r rs IH].
  - split; [intros _; apply not_elem_of_nil|done].
  - rewrite filter_cons, fmap_cons, not_elem_of_cons.
    destruct (decide (ReconciledBillet.TransactionID r = id)) as [E|E]; cbn.
    + split; [lia|]. intros [H _]. by destruct H.
    + rewrite IH. split; [by split|by intros [_ ?]].
Qed.

Lemma recordMatch_usedConsistent st b p status strategy diff :
  usedConsistent st -> usedConsistent (recordMatch st b p status strategy diff).
Proof.
  intros Hc id. rewrite recordMatch_entries. cbn [recordMatch usedPaymentsMap].
  rewrite mapGet_insert, fmap_app, elem_of_app. cbn. rewrite list_elem_of_singleton.
  destruct (decide (Payment.ID p = id)) as [<-|Hne].
  - split; [by right|done].
  - rewrite (Hc id). split; [by left|]. intros [?|?]; [done|by destruct Hne].
Qed.

Lemma initialTracking_usedConsistent : usedConsistent initialTracking.
Proof.
  intros id. cbn. rewrite mapGet_empty. split; [discriminate|].
  intros H. by apply not_elem_of_nil in H.
Qed.

Lemma byReference_usedConsistent bs ps st :
  usedConsistent st -> usedConsistent (byReference bs ps st).
Proof.
  unfold byReference. apply foldl_invariant. intros st' b _ Hc.
  destruct (matchByReference_cases (indexPayments (usedPaymentsMap st) ps) st' b)
    as [->|(p & ref & status & _ & _ & _ & _ & _ & ->)]; [done|].
  by apply recordMatch_usedConsistent.
Qed.

Lemma byAccountValueDate_usedConsistent bs ps st :
  usedConsistent st -> usedConsistent (byAccountValueDate bs ps st).
Proof.
  unfold byAccountValueDate. apply foldl_invariant. intros st' p _ Hc.
  destruct (stepPayment_cases bs st' p) as [->|(b & _ & _ & _ & _ & ->)]; [done|].
  by apply recordMatch_usedConsistent.
Qed.

Lemma finalTracking_usedConsistent bs ps : usedConsistent (finalTracking bs ps).
Proof.
  apply byAccountValueDate_usedConsistent, byReference_usedConsistent,
    initialTracking_usedConsistent.
Qed.

Lemma stepPayment_accountMatchesOnce bs st p :
  usedConsistent st /\ accountMatchesOnce st ->
  usedConsistent (stepPayment bs st p) /\ accountMatchesOnce (stepPayment bs st p).
Proof.
  intros [Hc Ho].
  destruct (stepPayment_cases bs st p) as [->|(b & _ & _ & Hu & _ & ->)]; [done|].
  split; [by apply recordMatch_usedConsistent|].
  assert (consumptionsOf (Payment.ID p) (elems (reconciledBillets st)) = 0%nat) as Hfresh.
  { apply consumptionsOf_zero. intros Hin%Hc. congruence. }
  intros r Hr Hs. rewrite recordMatch_entries in Hr |- *.
  rewrite consumptionsOf_app. apply elem_of_app in Hr as [Hr|Hr].
  - rewrite (Ho r Hr Hs). unfold consumptionsOf at 1. rewrite filter_cons, filter_nil.
    cbn [matchEntry ReconciledBillet.TransactionID].
    rewrite decide_False; [done|]. intros E.
    apply consumptionsOf_zero in Hfresh. apply Hfresh. rewrite E.
    by apply list_elem_of_fmap_2.
  - apply list_elem_of_singleton in Hr as ->. cbn [matchEntry ReconciledBillet.TransactionID].
    rewrite Hfresh. unfold consumptionsOf. rewrite filter_cons, filter_nil.
    cbn [matchEntry ReconciledBillet.TransactionID]. by rewrite decide_True.
Qed.

Lemma finalTracking_accountMatchesOnce bs ps : accountMatchesOnce (finalTracking bs ps).
Proof.
  unfold finalTracking, byAccountValueDate.
  apply (foldl_invariant (fun st => usedConsistent st /\ accountMatchesOnce st)).
  - intros st p _. apply stepPayment_accountMatchesOnce.
  - split; [apply byReference_usedConsistent, initialTracking_usedConsistent|].
    intros r Hr Hs. exfalso.
    destruct (byReference_entries (indexPayments ∅ ps) bs initialTracking)
      as (n1 & E1 & F1).
    unfold byReference in Hr. cbn [usedPaymentsMap initialTracking] in Hr.
    rewrite E1 in Hr. cbn in Hr. rewrite Forall_forall in F1.
    destruct (F1 r Hr) as (b & p & ref & status & _ & _ & _ & _ & _ & ->).
    discriminate Hs.
Qed.

(** X7: the payment of a match by account, amount and date is consumed by
    that match only: no other match of the report, of either strategy,
    carries its transaction identifier. *)
Theorem account_match_consumes_payment_once billets payments report err :
  ReconcileBilletsWithPayments billets payments = Returns (Some report, err) ->
  forall r, r ∈ elems (ReconciliationResult.ReconciledBillets report) ->
  ReconciledBillet.ConciliationStrategy r = StrategyAccountAmountDate ->
  consumptionsOf (ReconciledBillet.TransactionID r)
    (elems (ReconciliationResult.ReconciledBillets report)) = 1%nat.
Proof.
  intros Hrun r Hr Hs.
  destruct (Reconcile_returns_inv _ _ _ Hrun) as (bs & ps & Hb & Hp & [= -> _]).
  by apply (finalTracking_accountMatchesOnce bs ps).
Qed.

(** On the reference data set, T101 is consumed once. *)
Lemma account_match_consumes_payment_once_witness :
  ReconcileBilletsWithPayments sampleBillets samplePayments
  = Returns (Some sampleReport, None) /\
  consumptionsOf "T101" (elems (ReconciliationResult.ReconciledBillets sampleReport))
  = 1%nat.
Proof.
  split; [exact sample_run|].
  exact (account_match_consumes_payment_once _ _ _ _ sample_run _ sample_match_B002
           eq_refl).
Defined.

(** ** No compatible pair is left unmatched *)

Lemma scan_none reconciled p bs best :
  bestBillet (foldl (considerBillet reconciled p) best bs) = None ->
  bestBillet best = None /\ forall b, b ∈ bs -> ~ eligible reconciled p b.
Proof.
  revert best. induction bs as [|x bs IH]; intros best H; cbn [foldl] in H.
  - split; [done|]. intros b Hb. by apply not_elem_of_nil in Hb.
  - destruct (IH _ H) as [Hx Hbs].
    destruct (considerBillet_guards reconciled p best x)
      as [[Hne E]|[(He & Hbt & E)|(_ & _ & E)]]; rewrite E in Hx.
    + split; [done|]. intros b [->|Hb]%elem_of_cons; [done|by apply Hbs].
    + unfold isBetter in Hbt. by rewrite Hx in Hbt.
    + discriminate Hx.
Qed.

Lemma stepPayment_reconciled_mono bs st p id :
  mapGet (reconciledBilletsMap st) id = true ->
  mapGet (reconciledBilletsMap (stepPayment bs st p)) id = true.
Proof.
  intros H. destruct (stepPayment_cases bs st p) as [->|(b & _ & _ & _ & _ & ->)]; [done|].
  cbn. rewrite mapGet_insert. by destruct (decide _).
Qed.

Lemma stepPayment_used_mono bs st p id :
  mapGet (usedPaymentsMap st) id = true ->
  mapGet (usedPaymentsMap (stepPayment bs st p)) id = true.
Proof.
  intros H. destruct (stepPayment_cases bs st p) as [->|(b & _ & _ & _ & _ & ->)]; [done|].
  cbn. rewrite mapGet_insert. by destruct (decide _).
Qed.

Lemma byAccountValueDate_mono bs ps st id :
  (mapGet (reconciledBilletsMap st) id = true ->
   mapGet (reconciledBilletsMap (byAccountValueDate bs ps st)) id = true) /\
  (mapGet (usedPaymentsMap st) id = true ->
   mapGet (usedPaymentsMap (byAccountValueDate bs ps st)) id = true).
Proof.
  unfold byAccountValueDate. revert st.
  induction ps as [|p ps IH]; intros st; [done|]. cbn [foldl].
  destruct (IH (stepPayment bs st p)) as [IH1 IH2]. split; intros H.
  - by apply IH1, stepPayment_reconciled_mono.
  - by apply IH2, stepPayment_used_mono.
Qed.

Lemma stepPayment_unused bs st p :
  mapGet (usedPaymentsMap (stepPayment bs st p)) (Payment.ID p) = false ->
  forall b, b ∈ bs -> ~ eligible (reconciledBilletsMap st) p b.
Proof.
  unfold stepPayment, matchBest.
  destruct (mapGet (usedPaymentsMap st) (Payment.ID p)) eqn:Hu; [congruence|].
  destruct (bestBillet _) as [b0|] eqn:Hb.
  - cbn. rewrite mapGet_insert, decide_True by done. discriminate.
  - intros _. by apply (scan_none _ _ _ _ Hb).
Qed.

Lemma byAccountValueDate_maximal bs ps st p b :
  p ∈ ps -> b ∈ bs ->
  mapGet (usedPaymentsMap (byAccountValueDate bs ps st)) (Payment.ID p) = false ->
  mapGet (reconciledBilletsMap (byAccountValueDate bs ps st)) (Billet.ID b) = false ->
  Billet.BankAccount b ≠ Payment.BankAccount p \/
  (TolerancePercentage <? amountDiffPercentage p b)%float = true.
Proof.
  intros Hp Hb. revert st. induction ps as [|q ps IH]; intros st Hu Hr.
  - by apply not_elem_of_nil in Hp.
  - unfold byAccountValueDate in Hu, Hr. cbn [foldl] in Hu, Hr.
    fold (byAccountValueDate bs ps (stepPayment bs st q)) in Hu, Hr.
    apply elem_of_cons in Hp as [->|Hp]; [|by apply (IH Hp (stepPayment bs st q))].
    destruct (byAccountValueDate_mono bs ps (stepPayment bs st q) (Payment.ID q))
      as [_ Hmu].
    destruct (byAccountValueDate_mono bs ps (stepPayment bs st q) (Billet.ID b))
      as [Hmr _].
    assert (mapGet (usedPaymentsMap (stepPayment bs st q)) (Payment.ID q) = false) as Hu'.
    { destruct (mapGet (usedPaymentsMap (stepPayment bs st q)) (Payment.ID q)) eqn:E;
        [|done]. rewrite Hmu in Hu; done. }
    assert (mapGet (reconciledBilletsMap st) (Billet.ID b) = false) as Hr'.
    { destruct (mapGet (reconciledBilletsMap st) _) eqn:E; [|done].
      rewrite Hmr in Hr; [done|]. by apply stepPayment_reconciled_mono. }
    pose proof (stepPayment_unused bs st q Hu' b Hb) as Hne.
    unfold eligible in Hne.
    destruct (decide (Billet.BankAccount b = Payment.BankAccount q)) as [Ha|Ha];
      [|by left].
    right. destruct (_ <? _)%float; [done|]. by destruct Hne.
Qed.

(** X8: when a run ends, no unmatched billet is compatible with a payment
    that no match has consumed: the two differ in bank account, or the
    percentage of their difference is above the tolerance. *)
Theorem no_compatible_pair_left billets payments report err :
  ReconcileBilletsWithPayments billets payments = Returns (Some report, err) ->
  forall b p,
    b ∈ elems (ReconciliationResult.NonReconciledBillets report) ->
    Some p ∈ elems payments ->
    consumptionsOf (Payment.ID p)
      (elems (ReconciliationResult.ReconciledBillets report)) = 0%nat ->
    Billet.BankAccount b ≠ Payment.BankAccount p \/
    (TolerancePercentage <? amountDiffPercentage p b)%float = true.
Proof.
  intros Hrun b p Hb Hp Hfree.
  destruct (Reconcile_returns_inv _ _ _ Hrun) as (bs & ps & Ebs & Eps & [= -> _]).
  cbn in Hb, Hfree. rewrite nonReconciledOf_filter in Hb.
  apply list_elem_of_filter in Hb as [Hr Hbin].
  rewrite Eps in Hp. apply list_elem_of_fmap in Hp as (p' & [= <-] & Hpin).
  apply (byAccountValueDate_maximal bs ps (byReference bs ps initialTracking)); try done.
  apply consumptionsOf_zero in Hfree.
  apply not_true_is_false. intros E.
  by apply (finalTracking_usedConsistent bs ps) in E.
Qed.

(** A billet of account C123 and a payment of the same account whose amount
    is twice the billet's stay unmatched. *)
Lemma no_compatible_pair_left_witness :
  ReconcileBilletsWithPayments (Slice [Some B001]) (Slice [Some T200])
  = Returns
      (Some {| ReconciliationResult.ReconciledBillets := Slice [];
               ReconciliationResult.NonReconciledBillets := Slice [B001] |},
       None) /\
  (Billet.BankAccount B001 ≠ Payment.BankAccount T200 \/
   (TolerancePercentage <? amountDiffPercentage T200 B001)%float = true).
Proof.
  assert (ReconcileBilletsWithPayments (Slice [Some B001]) (Slice [Some T200])
          = Returns
              (Some {| ReconciliationResult.ReconciledBillets := Slice [];
                       ReconciliationResult.NonReconciledBillets := Slice [B001] |},
               None)) as Hrun by (vm_compute; reflexivity).
  split; [exact Hrun|].
  apply (no_compatible_pair_left _ _ _ _ Hrun B001 T200).
  - cbn. apply elem_of_cons. by left.
  - cbn. apply elem_of_cons. by left.
  - reflexivity.
Defined.

(** ** The index of payments, read back *)

Lemma indexPayment_other used m q ref :
  Payment.ReferenceID q ≠ Some ref -> indexPayment used m q !! ref = m !! ref.
Proof.
  intros H. unfold indexPayment.
  destruct (Payment.ReferenceID q) as [ref'|]; [|done].
  destruct (_ && _); [|done]. rewrite lookup_insert_ne; [done|congruence].
Qed.

Lemma indexPayments_from used m ps ref :
  (forall q, q ∈ ps -> Payment.ReferenceID q ≠ Some ref) ->
  foldl (indexPayment used) m ps !! ref = m !! ref.
Proof.
  revert m. induction ps as [|q ps IH]; intros m H; [done|]. cbn [foldl].
  rewrite IH by (intros q' Hq'; apply H, elem_of_cons; by right).
  apply indexPayment_other, H, elem_of_cons. by left.
Qed.

Lemma indexPayments_lookup_last used earlier p later ref :
  Payment.ReferenceID p = Some ref -> ref ≠ "" ->
  mapGet used (Payment.ID p) = false ->
  (forall q, q ∈ later -> Payment.ReferenceID q ≠ Some ref) ->
  indexPayments used (earlier ++ p :: later) !! ref = Some p.
Proof.
  intros Hr Hne Hu Hl. unfold indexPayments. rewrite foldl_app. cbn [foldl].
  rewrite (indexPayments_from _ _ _ _ Hl). unfold indexPayment.
  rewrite Hr, Hu, bool_decide_eq_true_2 by done. cbn. by rewrite lookup_insert_eq.
Qed.

Lemma indexPayments_lookup_none used ps ref :
  ref = "" \/ (forall q, q ∈ ps -> Payment.ReferenceID q ≠ Some ref) ->
  indexPayments used ps !! ref = None.
Proof.
  intros H. destruct (indexPayments used ps !! ref) as [p|] eqn:E; [|done].
  destruct (indexPayments_last _ _ _ _ E) as (e & l & -> & Hr & Hne & _).
  destruct H as [->|H]; [done|]. exfalso. apply (H p); [|done].
  apply elem_of_app. right. apply elem_of_cons. by left.
Qed.

(** X9: the lookup that the reference strategy builds before it scans the
    billets answers, for a non-empty reference, with the last payment that
    carries it, and has no entry for a reference that no payment carries nor
    for the empty reference. *)
Theorem payments_index_lookup payments index :
  rangeLoop
    (fun m p => payment ← deref p; mret (indexPayment ∅ m payment))
    payments ∅ = Returns index ->
  (forall earlier p later ref,
     payments = earlier ++ Some p :: later ->
     Payment.ReferenceID p = Some ref -> ref ≠ "" ->
     (forall q, Some q ∈ later -> Payment.ReferenceID q ≠ Some ref) ->
     index !! ref = Some p) /\
  (forall ref,
     (forall q, Some q ∈ payments -> Payment.ReferenceID q ≠ Some ref) ->
     index !! ref = None) /\
  index !! "" = None.
Proof.
  intros Hrun. apply rangeLoop_deref_inv in Hrun as (ps & -> & ->).
  fold (indexPayments ∅ ps). split; [|split].
  - intros earlier p later ref E Hr Hne Hl.
    assert (exists e l, earlier = Some <$> e /\ later = Some <$> l /\ ps = e ++ p :: l)
      as (e & l & -> & -> & ->).
    { clear -E. revert earlier E. induction ps as [|x ps IH]; intros earlier E.
      - destruct earlier; discriminate E.
      - destruct earlier as [|y earlier]; cbn in E.
        + injection E as -> <-. by exists [], ps.
        + injection E as <- E. destruct (IH _ E) as (e & l & -> & -> & ->).
          by exists (x :: e), l. }
    apply indexPayments_lookup_last; try done.
    intros q Hq. apply Hl. by apply list_elem_of_fmap_2.
  - intros ref H. apply indexPayments_lookup_none. right.
    intros q Hq. apply H. by apply list_elem_of_fmap_2.
  - apply indexPayments_lookup_none. by left.
Qed.

(** Of two payments that carry REF001 the lookup answers with the second. *)
Lemma payments_index_lookup_witness :
  rangeLoop
    (fun m p => payment ← deref p; mret (indexPayment ∅ m payment))
    [Some T100; Some T100twin] ∅
  = Returns (<["REF001" := T100twin]> (<["REF001" := T100]> ∅)) /\
  (<["REF001" := T100twin]> (<["REF001" := T100]> ∅) : gmap string Payment.t)
    !! "REF001" = Some T100twin.
Proof.
  assert (rangeLoop
            (fun m p => payment ← deref p; mret (indexPayment ∅ m payment))
            [Some T100; Some T100twin] ∅
          = Returns (<["REF001" := T100twin]> (<["REF001" := T100]> ∅))) as Hrun
    by reflexivity.
  split; [exact Hrun|].
  apply (proj1 (payments_index_lookup _ _ Hrun) [Some T100] T100twin [] "REF001");
    [reflexivity|reflexivity|discriminate|].
  intros q Hq. by apply not_elem_of_nil in Hq.
Defined.

(** ** A pair that the reference strategy accepts is in the report *)

Lemma byReference_reconciled_among index bs st (ids : list string) :
  (forall id, mapGet (reconciledBilletsMap st) id = true -> id ∈ ids) ->
  forall id,
    mapGet (reconciledBilletsMap (foldl (matchByReference index) st bs)) id = true ->
    id ∈ ids ++ (Billet.ID <$> bs).
Proof.
  revert st ids. induction bs as [|x bs IH]; intros st ids H id Hid; cbn [foldl] in Hid.
  - rewrite app_nil_r. by apply H.
  - replace (ids ++ (Billet.ID <$> x :: bs))
      with ((ids ++ [Billet.ID x]) ++ (Billet.ID <$> bs)) by (by rewrite <- app_assoc).
    apply (IH (matchByReference index st x) (ids ++ [Billet.ID x])); [|done].
    intros id' Hid'.
    destruct (matchByReference_cases index st x)
      as [E|(p & ref & status & _ & _ & _ & _ & _ & E)]; rewrite E in Hid'.
    + apply elem_of_app. left. by apply H.
    + cbn in Hid'. rewrite mapGet_insert in Hid'. apply elem_of_app.
      destruct (decide (Billet.ID x = id')) as [<-|_].
      * right. by apply list_elem_of_singleton.
      * left. by apply H.
Qed.

Lemma referenceStatus_accepts p b :
  (amountDiff p b =? 0)%float = true \/
  (amountDiffPercentage p b <=? TolerancePercentage)%float = true ->
  referenceStatus p b = Some (statusOfDiff (amountDiff p b)).
Proof.
  unfold referenceStatus, statusOfDiff.
  destruct (amountDiff p b =? 0)%float; [done|].
  intros [?|H]; [done|]. by rewrite H.
Qed.

Lemma byReference_records index bs1 b bs2 st p ref :
  (forall id, mapGet (reconciledBilletsMap st) id = true -> False) ->
  Billet.ID b ∉ Billet.ID <$> bs1 ->
  Billet.ReferenceID b = Some ref -> ref ≠ "" -> index !! ref = Some p ->
  (amountDiff p b =? 0)%float = true \/
  (amountDiffPercentage p b <=? TolerancePercentage)%float = true ->
  matchEntry b p (statusOfDiff (amountDiff p b)) StrategyReferenceID (amountDiff p b)
    ∈ elems (reconciledBillets (foldl (matchByReference index) st (bs1 ++ b :: bs2))).
Proof.
  intros Hst Hfresh Href Hne Hidx Hacc.
  rewrite foldl_app. cbn [foldl].
  set (st1 := foldl (matchByReference index) st bs1).
  assert (mapGet (reconciledBilletsMap st1) (Billet.ID b) = false) as Hr.
  { apply not_true_is_false. intros E.
    apply (byReference_reconciled_among index bs1 st []) in E; [done|].
    intros id Hid. by destruct (Hst id Hid). }
  assert (matchByReference index st1 b
          = recordMatch st1 b p (statusOfDiff (amountDiff p b)) StrategyReferenceID
              (amountDiff p b)) as E.
  { unfold matchByReference.
    by rewrite Hr, Href, bool_decide_eq_false_2, Hidx, (referenceStatus_accepts _ _ Hacc). }
  destruct (byReference_entries index bs2 (matchByReference index st1 b)) as (new & -> & _).
  rewrite E, recordMatch_entries. apply elem_of_app. left.
  apply elem_of_app. right. by apply list_elem_of_singleton.
Qed.

(** X10: when the input billets have pairwise distinct identifiers, a billet
    with a non-empty reference is matched by reference with the last payment
    that carries this reference as soon as their amount difference is zero
    or its percentage is within the tolerance. *)
Theorem accepted_reference_pair_is_matched billets payments report err b p ref
    earlier later :
  ReconcileBilletsWithPayments billets payments = Returns (Some report, err) ->
  NoDup (billetIDs billets) ->
  Some b ∈ elems billets ->
  Billet.ReferenceID b = Some ref -> ref ≠ "" ->
  elems payments = earlier ++ Some p :: later ->
  Payment.ReferenceID p = Some ref ->
  (forall q, Some q ∈ later -> Payment.ReferenceID q ≠ Some ref) ->
  (amountDiff p b =? 0)%float = true \/
  (amountDiffPercentage p b <=? TolerancePercentage)%float = true ->
  matchEntry b p
    (if (amountDiff p b =? 0)%float then StatusSuccessful else StatusDifferentValue)
    StrategyReferenceID (amountDiff p b)
    ∈ elems (ReconciliationResult.ReconciledBillets report).
Proof.
  intros Hrun Hnd Hb Href Hne Eps Hpr Hlater Hacc.
  destruct (Reconcile_returns_inv _ _ _ Hrun) as (bs & ps & Ebs & Hp & [= -> _]).
  assert (indexPayments ∅ ps !! ref = Some p) as Hlook.
  { assert (exists e l, ps = e ++ p :: l /\ later = Some <$> l) as (e & l & -> & ->).
    { rewrite Hp in Eps. clear -Eps. revert earlier Eps.
      induction ps as [|x ps IH]; intros earlier E.
      - destruct earlier; discriminate E.
      - destruct earlier as [|y earlier]; cbn in E.
        + injection E as -> <-. by exists [], ps.
        + injection E as _ E. destruct (IH _ E) as (e & l & -> & ->).
          by exists (x :: e), l. }
    apply indexPayments_lookup_last; try done.
    intros q Hq. apply Hlater. by apply list_elem_of_fmap_2. }
  unfold billetIDs in Hnd. rewrite Ebs, omap_id_values in Hnd.
  rewrite Ebs in Hb. apply list_elem_of_fmap in Hb as (b' & [= <-] & Hbin).
  apply list_elem_of_split in Hbin as (bs1 & bs2 & ->).
  rewrite fmap_app, fmap_cons in Hnd. apply NoDup_app in Hnd as (_ & Hfresh & _).
  cbn. unfold finalTracking.
  destruct (byAccountValueDate_entries (bs1 ++ b :: bs2) ps
              (byReference (bs1 ++ b :: bs2) ps initialTracking)) as (new & -> & _).
  apply elem_of_app. left. unfold byReference. cbn [usedPaymentsMap initialTracking].
  apply (byReference_records _ bs1 b bs2 initialTracking p ref); try done.
  intros Hin. apply (Hfresh _ Hin). apply elem_of_cons. by left.
Qed.

(** On the reference data set, B001 and T100 carry REF001 and the same
    amount: their match is in the report. *)
Lemma accepted_reference_pair_is_matched_witness :
  ReconcileBilletsWithPayments sampleBillets samplePayments
  = Returns (Some sampleReport, None) /\
  NoDup (billetIDs sampleBillets) /\
  matchEntry B001 T100 StatusSuccessful StrategyReferenceID 0
    ∈ elems (ReconciliationResult.ReconciledBillets sampleReport).
Proof.
  assert (NoDup (billetIDs sampleBillets)) as Hnd.
  { apply (bool_decide_unpack _). vm_compute. exact I. }
  split; [exact sample_run|]. split; [exact Hnd|].
  apply (accepted_reference_pair_is_matched sampleBillets samplePayments sampleReport
           None B001 T100 "REF001" [] [Some T101; Some T102; Some T103]
           sample_run Hnd).
  - cbn. apply elem_of_cons. by left.
  - reflexivity.
  - discriminate.
  - reflexivity.
  - reflexivity.
  - intros q Hq.
    repeat (apply elem_of_cons in Hq as [[= ->]|Hq]; [discriminate|]).
    by apply not_elem_of_nil in Hq.
  - left. reflexivity.
Defined.

(** ** Nil pointers and empty inputs *)

(** X11: a run panics exactly when one of the two slices holds a nil
    pointer. *)
Theorem reconcile_panics_iff_nil_element billets payments :
  ReconcileBilletsWithPayments billets payments = Panics
  <-> None ∈ elems billets \/ None ∈ elems payments.
Proof.
  split.
  - intros H.
    destruct (nil_or_values (elems billets)) as [?|[bs Ebs]]; [by left|].
    destruct (nil_or_values (elems payments)) as [?|[ps Eps]]; [by right|].
    rewrite (Reconcile_values _ _ _ _ Ebs Eps) in H. discriminate H.
  - intros H. unfold ReconcileBilletsWithPayments.
    by rewrite reconcileByReferenceID_nil.
Qed.

Lemma nonReconciledOf_none_reconciled reconciled bs :
  (forall b, b ∈ bs -> mapGet reconciled (Billet.ID b) = false) ->
  nonReconciledOf reconciled bs = Slice bs.
Proof.
  intros H.
  pose proof (nonReconciledOf_non_nil reconciled bs) as Hn.
  pose proof (nonReconciledOf_filter reconciled bs) as He.
  destruct (nonReconciledOf reconciled bs) as [|l]; [done|].
  cbn in He. rewrite He. f_equal.
  clear -H. induction bs as [|b bs IH]; [done|].
  rewrite filter_cons, decide_True by (apply H, elem_of_cons; by left).
  f_equal. apply IH. intros b' Hb'. apply H, elem_of_cons. by right.
Qed.

Lemma byReference_no_payment bs st : byReference bs [] st = st.
Proof.
  unfold byReference. apply (foldl_invariant (fun s => s = st)); [|done].
  intros s b _ ->. unfold matchByReference, indexPayments. cbn [foldl].
  destruct (mapGet _ _); [done|]. destruct (Billet.ReferenceID b); [|done].
  case_bool_decide; [done|]. by rewrite lookup_empty.
Qed.

Lemma byAccountValueDate_no_billet ps st : byAccountValueDate [] ps st = st.
Proof.
  unfold byAccountValueDate. apply (foldl_invariant (fun s => s = st)); [|done].
  intros s p _ ->. unfold stepPayment. by destruct (mapGet _ _).
Qed.

(** X12: when there is no payment, or no billet, nothing is matched and all
    the billets are reported unmatched, in input order. *)
Theorem empty_input_matches_nothing billets payments :
  elems payments = [] \/ elems billets = [] ->
  None ∉ elems billets -> None ∉ elems payments ->
  ReconcileBilletsWithPayments billets payments
  = Returns
      (Some {| ReconciliationResult.ReconciledBillets := Slice [];
               ReconciliationResult.NonReconciledBillets := Slice (billetsOf billets) |},
       None).
Proof.
  intros Hempty Hb Hp.
  destruct (nil_or_values (elems billets)) as [?|[bs Ebs]]; [done|].
  destruct (nil_or_values (elems payments)) as [?|[ps Eps]]; [done|].
  rewrite (Reconcile_values _ _ _ _ Ebs Eps). unfold billetsOf.
  rewrite Ebs, omap_id_values. unfold reportOf, finalTracking.
  assert (byAccountValueDate bs ps (byReference bs ps initialTracking) = initialTracking)
    as ->.
  { destruct Hempty as [E|E].
    - rewrite Eps in E. destruct ps; [|discriminate E].
      by rewrite byReference_no_payment.
    - rewrite Ebs in E. destruct bs; [|discriminate E].
      by rewrite byAccountValueDate_no_billet. }
  cbn [reconciledBillets reconciledBilletsMap initialTracking].
  rewrite nonReconciledOf_none_reconciled; [done|].
  intros b _. apply mapGet_empty.
Qed.

(** Two billets and a nil slice of payments. *)
Lemma empty_input_matches_nothing_witness :
  (elems (NilSlice : slice (ptr Payment.t)) = [] \/ elems (Slice [Some B002; Some B001]) = []) /\
  ReconcileBilletsWithPayments (Slice [Some B002; Some B001]) NilSlice
  = Returns
      (Some {| ReconciliationResult.ReconciledBillets := Slice [];
               ReconciliationResult.NonReconciledBillets := Slice [B002; B001] |},
       None).
Proof.
  split; [by left|].
  apply (empty_input_matches_nothing (Slice [Some B002; Some B001]) NilSlice).
  - by left.
  - cbn. intros H. repeat (apply elem_of_cons in H as [H|H]; [discriminate H|]).
    by apply not_elem_of_nil in H.
  - cbn. apply not_elem_of_nil.
Defined.

(** ** Dates far apart, and amounts below zero *)

(** X13: the date distance of a payment and a billet is the absolute
    difference of the two instants, saturated at the largest duration; when
    the payment is earlier than the issuance by 2^63 nanoseconds or more, the
    negation overflows and the distance is the most negative duration, which
    no other distance is below. *)
Theorem dateDiff_saturates payment billet :
  dateDiff payment billet
  = (if Payment.PaymentDate payment - Billet.IssuanceDate billet <=? - 2 ^ 63
     then - 2 ^ 63
     else Z.min (Z.abs (Payment.PaymentDate payment - Billet.IssuanceDate billet))
            (2 ^ 63 - 1)) /\
  forall other, - 2 ^ 63 <= dateDiff payment other.
Proof.
  assert (forall c,
    dateDiff payment c
    = if Payment.PaymentDate payment - Billet.IssuanceDate c <=? - 2 ^ 63
      then - 2 ^ 63
      else Z.min (Z.abs (Payment.PaymentDate payment - Billet.IssuanceDate c))
             (2 ^ 63 - 1)) as H.
  { intros c. unfold dateDiff, time.Sub, time.neg, time.wrap64, time.minDuration,
      time.maxDuration.
    set (d := Payment.PaymentDate payment - Billet.IssuanceDate c).
    destruct (Z.leb_spec d (- 2 ^ 63)) as [Hd|Hd];
      destruct (Z.ltb_spec (Z.max (- 2 ^ 63) (Z.min (2 ^ 63 - 1) d)) 0) as [Hs|Hs];
      try lia.
    - replace (Z.max (- 2 ^ 63) (Z.min (2 ^ 63 - 1) d)) with (- 2 ^ 63) by lia.
      reflexivity.
    - replace (Z.max (- 2 ^ 63) (Z.min (2 ^ 63 - 1) d)) with d by lia.
      replace (- d + 2 ^ 63) with (2 ^ 63 - d) by lia.
      rewrite Z.mod_small by lia. lia. }
  split; [apply H|]. intros other. rewrite H.
  destruct (Z.leb_spec (Payment.PaymentDate payment - Billet.IssuanceDate other)
              (- 2 ^ 63)); lia.
Qed.

Lemma abs_not_negative x : (abs x <? 0)%float = false.
Proof.
  rewrite ltb_spec, abs_spec. change (Prim2SF 0) with (S754_zero false).
  by destruct (Prim2SF x) as [s|s| |s m e].
Qed.

(** X14: the amount difference of a match is never below zero. *)
Theorem amount_diff_not_negative billets payments report err :
  ReconcileBilletsWithPayments billets payments = Returns (Some report, err) ->
  forall r, r ∈ elems (ReconciliationResult.ReconciledBillets report) ->
  (ReconciledBillet.AmountDiff r <? 0)%float = false.
Proof.
  intros Hrun r Hr.
  destruct (report_pairs _ _ _ _ Hrun r Hr) as (b & p & _ & _ & (s & _ & ->) & _).
  apply abs_not_negative.
Qed.

Lemma amount_diff_not_negative_witness :
  ReconcileBilletsWithPayments sampleBillets samplePayments
  = Returns (Some sampleReport, None) /\
  (5 <? 0)%float = false.
Proof.
  split; [exact sample_run|].
  exact (amount_diff_not_negative _ _ _ _ sample_run _ sample_match_B002).
Defined.

Lemma iter_pos_invariant {A : Type} (P : A -> Prop) (f : A -> A) (n : positive) (x : A) :
  (forall y, P y -> P (f y)) -> P x -> P (SpecFloat.iter_pos f n x).
Proof.
  intros Hf. revert x. induction n as [n IH|n IH|]; intros x Hx; cbn; auto.
Qed.

Lemma shr_1_nonneg mrs : 0 <= shr_m mrs -> 0 <= shr_m (shr_1 mrs).
Proof. destruct mrs as [[|[p|p|]|[p|p|]] r s]; cbn; lia. Qed.

Lemma shr_fexp_nonneg m e l : 0 <= m -> 0 <= shr_m (fst (shr_fexp prec emax m e l)).
Proof.
  intros Hm. unfold shr_fexp, shr.
  assert (0 <= shr_m (shr_record_of_loc m l)) as H0 by (by destruct l as [|[]]).
  destruct (_ - _) as [|n|n]; cbn [fst]; try done.
  by apply (iter_pos_invariant (fun mrs => 0 <= shr_m mrs)); [apply shr_1_nonneg|].
Qed.

Lemma round_nearest_even_nonneg m l : 0 <= m -> 0 <= round_nearest_even m l.
Proof.
  intros Hm. destruct l as [|[]]; cbn; try done; [|lia].
  destruct (Z.even m); lia.
Qed.

Lemma binary_round_aux_sign sx mx ex lx :
  0 <= mx -> hasSign sx (binary_round_aux prec emax sx mx ex lx).
Proof.
  intros Hm. unfold binary_round_aux.
  pose proof (shr_fexp_nonneg mx ex lx Hm) as H1.
  destruct (shr_fexp prec emax mx ex lx) as [mrs' e']. cbn [fst] in H1.
  pose proof (shr_fexp_nonneg _ e' loc_Exact
                (round_nearest_even_nonneg _ (loc_of_shr_record mrs') H1)) as H2.
  destruct (shr_fexp prec emax _ e' loc_Exact) as [mrs'' e'']. cbn [fst] in H2.
  destruct (shr_m mrs'') as [|m|m]; [done| |lia].
  by destruct (_ <=? _).
Qed.

Lemma SFdiv_sign sx mx ex sy my ey :
  hasSign (xorb sx sy)
    (SF64div (S754_finite sx mx ex) (S754_finite sy my ey)).
Proof.
  unfold SF64div, SFdiv.
  destruct (SFdiv_core_binary prec emax (Z.pos mx) ex (Z.pos my) ey) as [[mz ez] lz] eqn:E.
  apply binary_round_aux_sign.
  unfold SFdiv_core_binary in E.
  set (m' := match _ - _ - _ with Z.pos _ => _ | 0 => _ | Z.neg _ => _ end) in E.
  assert (0 <= m') as Hm'.
  { subst m'. destruct (_ - _ - _); [lia| |lia]. by apply Z.shiftl_nonneg. }
  pose proof (Z.div_eucl_eq m' (Z.pos my) ltac:(lia)) as Hq.
  pose proof (Z.mod_pos_bound m' (Z.pos my) ltac:(lia)) as Hr.
  unfold Z.modulo in Hr.
  destruct (Z.div_eucl m' (Z.pos my)) as [q r]. injection E as <- _ _. nia.
Qed.

Lemma SFmul_sign sx mx ex sy my ey :
  hasSign (xorb sx sy)
    (SF64mul (S754_finite sx mx ex) (S754_finite sy my ey)).
Proof. unfold SF64mul, SFmul. by apply binary_round_aux_sign. Qed.

(** The percentage of a difference against a negative finite amount is
    negative: a zero, a finite number or an infinity of negative sign. *)
Lemma pct_of_negative_amount d a x :
  (a <? 0)%float = true -> is_finite a = true ->
  d = abs x -> is_nan d = false ->
  hasSign true (Prim2SF (d / a * 100)%float).
Proof.
  intros Ha Hf -> Hn. rewrite is_nan_false in Hn.
  rewrite ltb_spec in Ha. unfold is_finite, is_infinity in Hf.
  apply negb_true_iff, orb_false_iff in Hf as [_ Hi].
  rewrite FloatAxioms.eqb_spec, abs_spec in Hi.
  rewrite mul_spec, div_spec. rewrite abs_spec in *.
  change (Prim2SF infinity) with (S754_infinity false) in Hi.
  change (Prim2SF 0) with (S754_zero false) in Ha.
  change (Prim2SF 100) with (S754_finite false 7036874417766400 (-46)).
  destruct (Prim2SF a) as [sa|sa| |sa ma ea]; try discriminate Ha;
    try discriminate Hi.
  destruct sa; [|discriminate Ha].
  destruct (Prim2SF x) as [s|s| |s m e]; [reflexivity|reflexivity|done|].
  cbn [SFabs].
  pose proof (SFdiv_sign false m e true ma ea) as Hd. cbn [xorb] in Hd.
  destruct (SF64div _ _) as [s'|s'| |s' m' e']; cbn in Hd; try done; subst s'; try done.
  apply (SFmul_sign true m' e' false).
Qed.

(** X15: the tolerance does not hold against a billet of negative (finite)
    amount: whatever the amount of the payment, as long as their difference
    is a number, the percentage is negative, so the reference strategy
    accepts the pair and the tolerance guard of the second strategy lets it
    through. *)
Theorem negative_billet_amount_defeats_tolerance billet payment :
  (Billet.Amount billet <? 0)%float = true ->
  is_finite (Billet.Amount billet) = true ->
  is_nan (amountDiff payment billet) = false ->
  (amountDiffPercentage payment billet <=? TolerancePercentage)%float = true /\
  (TolerancePercentage <? amountDiffPercentage payment billet)%float = false /\
  referenceStatus payment billet
  = Some (if (amountDiff payment billet =? 0)%float
          then StatusSuccessful else StatusDifferentValue).
Proof.
  intros Ha Hf Hn.
  pose proof (pct_of_negative_amount (amountDiff payment billet) _
                (Payment.Amount payment - Billet.Amount billet) Ha Hf eq_refl Hn) as Hs.
  assert ((amountDiffPercentage payment billet <=? TolerancePercentage)%float = true) as Hle.
  { unfold amountDiffPercentage, TolerancePercentage. rewrite leb_spec.
    change (Prim2SF 5) with (S754_finite false 5629499534213120 (-50)).
    destruct (Prim2SF _) as [s|s| |s m e]; cbn in Hs; try done; by subst s. }
  split; [done|]. split; [by apply leb_ltb_false|].
  apply referenceStatus_accepts. by right.
Qed.

(** A billet of -100 and a payment of 10: a difference of 110 that passes. *)
Lemma negative_billet_amount_defeats_tolerance_witness :
  (Billet.Amount negativeBillet <? 0)%float = true /\
  amountDiff tenPayment negativeBillet = 110%float /\
  referenceStatus tenPayment negativeBillet = Some StatusDifferentValue.
Proof.
  split; [reflexivity|]. split; [reflexivity|].
  exact (proj2 (proj2 (negative_billet_amount_defeats_tolerance negativeBillet tenPayment
                         eq_refl eq_refl eq_refl))).
Defined.

(** ** The counts of a report *)

Lemma filter_split_length {A : Type} (P : A -> Prop) `{!forall x, Decision (P x)}
    (l : list A) :
  (length (filter P l) + length (filter (fun x => ~ P x) l) = length l)%nat.
Proof.
  induction l as [|x l IH]; [done|]. rewrite !filter_cons.
  destruct (decide (P x)).
  - rewrite decide_False by tauto. cbn. lia.
  - rewrite decide_True by done. cbn. lia.
Qed.

Lemma NoDup_fmap_filter {A B : Type} (f : A -> B) (P : A -> Prop)
    `{!forall x, Decision (P x)} (l : list A) :
  NoDup (f <$> l) -> NoDup (f <$> filter P l).
Proof.
  induction l as [|x l IH]; [done|]. rewrite fmap_cons, filter_cons.
  intros [Hx Hl]%NoDup_cons. destruct (decide (P x)); [|by apply IH].
  rewrite fmap_cons. apply NoDup_cons. split; [|by apply IH].
  intros (y & E & (_ & Hy)%list_elem_of_filter)%list_elem_of_fmap.
  apply Hx. rewrite E. by apply list_elem_of_fmap_2.
Qed.

(** The distinct billet identifiers that the matches carry are identifiers
    of billets that the tracking map marks. *)
Lemma matches_among_reconciled bs ps :
  ReconciledBillet.BilletID <$> elems (reconciledBillets (finalTracking bs ps))
  ⊆ Billet.ID
      <$> filter (fun b => mapGet (reconciledBilletsMap (finalTracking bs ps))
                             (Billet.ID b) = true) bs.
Proof.
  intros id Hid.
  pose proof (matchesOf_positive _ _ Hid) as Hpos.
  rewrite (finalTracking_consistent bs ps id) in Hpos.
  destruct (mapGet _ id) eqn:Hr; [|lia].
  apply list_elem_of_fmap in Hid as (r & -> & Hr').
  pose proof (finalTracking_pairs bs ps) as Hall. rewrite Forall_forall in Hall.
  destruct (Hall r Hr') as (b & p & Hb & _ & (s & _ & ->) & _).
  cbn in *. apply list_elem_of_fmap. exists b. split; [done|].
  by apply list_elem_of_filter.
Qed.

(** X17: a report never holds more matches and unmatched billets than the
    input holds billets, and holds exactly as many when the billets have
    pairwise distinct identifiers. *)
Theorem report_counts billets payments report err :
  ReconcileBilletsWithPayments billets payments = Returns (Some report, err) ->
  (length (elems (ReconciliationResult.ReconciledBillets report))
   + length (elems (ReconciliationResult.NonReconciledBillets report))
   <= length (elems billets))%nat /\
  (NoDup (billetIDs billets) ->
   (length (elems (ReconciliationResult.ReconciledBillets report))
    + length (elems (ReconciliationResult.NonReconciledBillets report))
    = length (elems billets))%nat).
Proof.
  intros Hrun.
  destruct (Reconcile_returns_inv _ _ _ Hrun) as (bs & ps & Hb & Hp & [= -> _]).
  pose proof (finalTracking_billet_ids_distinct bs ps) as Hnd.
  unfold billetIDs. rewrite Hb, omap_id_values, length_fmap. cbn in *.
  rewrite nonReconciledOf_filter.
  set (R := reconciledBilletsMap (finalTracking bs ps)) in *.
  set (rs := elems (reconciledBillets (finalTracking bs ps))) in *.
  pose proof (filter_split_length (fun b => mapGet R (Billet.ID b) = true) bs) as Hsplit.
  assert (length (filter (fun b => mapGet R (Billet.ID b) = false) bs)
          = length (filter (fun b => ~ mapGet R (Billet.ID b) = true) bs)) as Hneg.
  { f_equal. apply list_filter_iff. intros b. by destruct (mapGet R _). }
  pose proof (matches_among_reconciled bs ps) as Hsub. fold R rs in Hsub.
  pose proof (submseteq_length _ _ (NoDup_submseteq _ _ Hnd Hsub)) as Hle.
  rewrite !length_fmap in Hle.
  split; [lia|]. intros Hids.
  assert (Billet.ID <$> filter (fun b => mapGet R (Billet.ID b) = true) bs
          ⊆ ReconciledBillet.BilletID <$> rs) as Hsup.
  { intros id (b & -> & (Hr & _)%list_elem_of_filter)%list_elem_of_fmap.
    pose proof (finalTracking_consistent bs ps (Billet.ID b)) as Hc.
    fold R rs in Hc. rewrite Hr in Hc.
    unfold matchesOf in Hc.
    destruct (filter _ rs) as [|r l] eqn:E; [discriminate Hc|].
    assert (r ∈ filter (fun r => ReconciledBillet.BilletID r = Billet.ID b) rs) as Hin
      by (rewrite E; apply elem_of_cons; by left).
    apply list_elem_of_filter in Hin as [<- Hin]. by apply list_elem_of_fmap_2. }
  pose proof (submseteq_length _ _
                (NoDup_submseteq _ _ (NoDup_fmap_filter Billet.ID _ bs Hids) Hsup)) as Hge.
  rewrite !length_fmap in Hge. lia.
Qed.

(** On the reference data set: four matches, no unmatched billet, four
    billets. *)
Lemma report_counts_witness :
  ReconcileBilletsWithPayments sampleBillets samplePayments
  = Returns (Some sampleReport, None) /\
  NoDup (billetIDs sampleBillets) /\
  (length (elems (ReconciliationResult.ReconciledBillets sampleReport))
   + length (elems (ReconciliationResult.NonReconciledBillets sampleReport))
   = length (elems sampleBillets))%nat.
Proof.
  assert (NoDup (billetIDs sampleBillets)) as Hnd.
  { apply (bool_decide_unpack _). vm_compute. exact I. }
  split; [exact sample_run|]. split; [exact Hnd|].
  exact (proj2 (report_counts _ _ _ _ sample_run) Hnd).
Defined.

(** * Errors and the lookup of a billet *)

(** X16: looking a billet up never answers 404 and never panics. The
    repository reports a missing row with a plain [fmt.Errorf] error, and
    [handleError] looks at the kind of the error itself: a billet that does
    not exist is answered with 500 and the text of the repository. *)
Theorem billet_lookup_never_answers_not_found encode scan pathID :
  exists resp,
    BilletHandler_GetBilletByID encode scan pathID = Returns resp /\
    http.StatusCode resp ≠ http.StatusNotFound /\
    (pathID ≠ "" -> scanErr scan = Some errors.sqlErrNoRows ->
     resp = http.Error ("Erro interno do servidor: boleto não encontrado: " +:+ pathID)
              http.StatusInternalServerError).
Proof.
  unfold BilletHandler_GetBilletByID, BilletUseCase_GetBilletByID,
    billetRepository_GetByID.
  case_bool_decide as Hid.
  { eexists. split; [done|]. split; [discriminate|]. intros H. by destruct H. }
  destruct (scanErr scan) as [e|] eqn:He.
  - destruct e; cbn; (eexists; split; [done|]; split; [discriminate|]);
      intros _ [=]; done.
  - cbn. eexists. split; [done|]. split; [discriminate|]. intros _ [=].
Qed.

(** A billet that is not in the table. *)
Lemma billet_lookup_never_answers_not_found_witness :
  BilletHandler_GetBilletByID (fun _ => "")
    (mkScanResult (Some errors.sqlErrNoRows) B001 (mkNullString "" false)) "B404"
  = Returns (http.Error "Erro interno do servidor: boleto não encontrado: B404" 500).
Proof.
  destruct (billet_lookup_never_answers_not_found (fun _ => "")
              (mkScanResult (Some errors.sqlErrNoRows) B001 (mkNullString "" false))
              "B404") as (resp & Hrun & _ & Hresp).
  rewrite Hrun. f_equal. apply Hresp; [discriminate|reflexivity].
Defined.

(** [Wrap] never returns the nil error, not even for a nil error; what
    it returns is of none of the four kinds of the package, whatever it
    wraps, so [handleError] answers it with 500. *)
Theorem wrap_hides_the_kind err message :
  errors.Wrap err message ≠ None /\
  errors.IsNotFoundError (errors.Wrap err message) = false /\
  errors.IsValidationError (errors.Wrap err message) = false /\
  errors.IsConflictError (errors.Wrap err message) = false /\
  errors.IsDatabaseError (errors.Wrap err message) = false /\
  handleError (errors.Wrap err message)
  = Returns
      (http.Error
         ("Erro interno do servidor: " +:+ message +:+ ": "
          +:+ match err with
              | Some e => errors.Error e
              | None => "%!w(<nil>)"
              end)
         http.StatusInternalServerError).
Proof. by destruct err. Qed.
